(** * Slack integration adapter (resolver.js): a shallow embedding

    The module keeps two pieces of module-level state (the loaded
    integration manager and the [BrowserConfig] map), reads the browser's
    [localStorage], logs to the console, sleeps on a timer and talks to Slack
    through axios.  State is passed explicitly; console output, the timer and
    every call of the HTTP client are recorded in a trace of events; a
    [TypeError] raised by reading a property of [null] or [undefined] is an
    explicit completion. *)

From stdpp Require Import gmap strings list fin_maps pretty.

#[local] Open Scope Z_scope.
#[local] Set Warnings "-register-all".

(** ** JavaScript values

    Numbers are the integers (status codes, lengths, indices); fractions,
    [NaN] and the infinities are outside the model.  Objects are finite maps
    from property names to values: property order is not recorded, since the
    code only ever stores the properties it enumerates into a [Map] read by
    key.  Functions are not values here: the two callable things the module
    uses (the integration manager's [getIntegrationConfig] and the axios
    client) are modelled apart. *)
Inductive value :=
  | VUndef
  | VNull
  | VBool (b : bool)
  | VNum (n : Z)
  | VStr (s : string)
  | VArr (l : list value)
  | VObj (o : gmap string value).

(** ToBoolean: what [if (x)], [!x] and [x && y] test. *)
Definition truthy (v : value) : bool :=
  match v with
  | VUndef | VNull => false
  | VBool b => b
  | VNum n => negb (n =? 0)
  | VStr s => negb (String.eqb s "")
  | VArr _ | VObj _ => true
  end.

(** [Array.prototype.join] with a separator. *)
Fixpoint join (sep : string) (l : list string) : string :=
  match l with
  | [] => ""
  | [s] => s
  | s :: r => s +:+ sep +:+ join sep r
  end.

(** ToString, as a template literal applies it to an interpolated value. *)
Fixpoint to_string (v : value) : string :=
  match v with
  | VUndef => "undefined"
  | VNull => "null"
  | VBool b => if b then "true" else "false"
  | VNum n => pretty n
  | VStr s => s
  | VArr l =>
      join "," ((fix elems (l : list value) : list string :=
                   match l with
                   | [] => []
                   | x :: r =>
                       match x with
                       | VUndef | VNull => ""
                       | _ => to_string x
                       end :: elems r
                   end) l)
  | VObj _ => "[object Object]"
  end.

Definition digit_of (c : Ascii.ascii) : option Z :=
  let n := Z.of_N (Ascii.N_of_ascii c) in
  if (48 <=? n) && (n <=? 57) then Some (n - 48) else None.

Fixpoint digits_value (acc : Z) (s : string) : option Z :=
  match s with
  | EmptyString => Some acc
  | String c r =>
      match digit_of c with
      | Some d => digits_value (10 * acc + d) r
      | None => None
      end
  end.

(** ToNumber; [None] is [NaN].  Of the numeric string literals only the
    empty string and unsigned decimal integers are read; signs, white space,
    fractions, exponents and radix prefixes are outside the model. *)
Definition to_number (v : value) : option Z :=
  match v with
  | VUndef => None
  | VNull => Some 0
  | VBool b => Some (if b then 1 else 0)
  | VNum n => Some n
  | VStr s => digits_value 0 s
  | VArr _ | VObj _ => digits_value 0 (to_string v)
  end.

(** [a >= n] for a number literal [n]: false when [a] converts to [NaN]. *)
Definition js_ge (a : value) (n : Z) : bool :=
  match to_number a with
  | Some x => n <=? x
  | None => false
  end.

(** The element stored under the canonical index string [k], counting the
    head of [l] as index [i]. *)
Fixpoint lookup_index (k : string) (i : nat) (l : list value) : option value :=
  match l with
  | [] => None
  | x :: r =>
      if decide (pretty (Z.of_nat i) = k) then Some x
      else lookup_index k (S i) r
  end.

Definition string_chars (s : string) : list value :=
  (λ c, VStr (String c EmptyString)) <$> String.list_ascii_of_string s.

(** Own properties of arrays and strings: [length] and the indices. *)
Definition indexed_prop (l : list value) (k : string) : value :=
  if decide (k = "length") then VNum (Z.of_nat (length l))
  else default VUndef (lookup_index k 0 l).

(** Property read [v.k] / [v[k]].  [None] is the [TypeError] raised on
    [null] and [undefined].  Inherited members (methods of the prototypes)
    are not modelled: none of the names the module reads is one. *)
Definition get_prop (v : value) (k : string) : option value :=
  match v with
  | VUndef | VNull => None
  | VBool _ | VNum _ => Some VUndef
  | VStr s => Some (indexed_prop (string_chars s) k)
  | VArr l => Some (indexed_prop l k)
  | VObj o => Some (default VUndef (o !! k))
  end.

(** [v[n]] for a number [n]: the key is [String(n)]. *)
Definition get_index (v : value) (n : Z) : option value :=
  get_prop v (to_string (VNum n)).

(** Entries of [imap]-style numbering, for [Object.entries] of arrays and
    strings. *)
Fixpoint index_entries (i : nat) (l : list value) : list (string * value) :=
  match l with
  | [] => []
  | x :: r => (pretty (Z.of_nat i), x) :: index_entries (S i) r
  end.

(** [Object.entries(v)]; [None] is the [TypeError] on [null] and
    [undefined].  For an object the entries come in the map's order, each
    key once. *)
Definition Object_entries (v : value) : option (list (string * value)) :=
  match v with
  | VUndef | VNull => None
  | VBool _ | VNum _ => Some []
  | VStr s => Some (index_entries 0 (string_chars s))
  | VArr l => Some (index_entries 0 l)
  | VObj o => Some (map_to_list o)
  end.

(** [typeof v === 'object'] *)
Definition typeof_object (v : value) : bool :=
  match v with
  | VNull | VArr _ | VObj _ => true
  | _ => false
  end.

(** ** The environment: promises, axios, the console, timers *)

Inductive settled (A : Type) :=
  | Fulfilled (a : A)
  | Rejected (reason : value).
Arguments Fulfilled {A} a.
Arguments Rejected {A} reason.

(** The second argument of [axios(url, config)]; [req_data] is absent on the
    GET request. *)
Record AxiosRequestConfig := {
  method : string;
  headers : gmap string value;
  req_data : option value
}.

Record AxiosResponse := {
  status : Z;
  statusText : string;
  data : value
}.

Definition axios_client : Type :=
  string → AxiosRequestConfig → settled AxiosResponse.

(** What the module finds around it.  [axiosPromise] is the dynamic import
    of line 1 followed by [.default]: rejected when the import fails (a
    module without a callable default export makes the call itself throw
    inside the [try], which is the same rejection with that error as the
    reason).  [localStorage] is [None] when there is no [window] or no
    storage; otherwise it maps item names to the stored strings. *)
Record world := {
  axiosPromise : settled axios_client;
  localStorage : option (gmap string string)
}.

(** The integration manager module, which may or may not carry the
    [getIntegrationConfig] capability. *)
Record integrations := {
  getIntegrationConfig : option (string → string → value)
}.

(** Module-level state: [let al_integmanager] ([None] while undefined) and
    [BrowserConfig.config]. *)
Record state := {
  al_integmanager : option integrations;
  config : gmap string value
}.

Definition initial_state : state :=
  {| al_integmanager := None; config := ∅ |}.

Inductive event :=
  | ConsoleError (args : list value)
  | ConsoleWarn (args : list value)
  | SetTimeout (ms : Z)
  | AxiosCall (url : string) (cfg : AxiosRequestConfig).

Inductive completion (A : Type) :=
  | Return (a : A)
  | ThrowTypeError.
Arguments Return {A} a.
Arguments ThrowTypeError {A}.

(** A computation: the events it performed, in order, and how it ended. *)
Definition M (A : Type) : Type := list event * completion A.

#[global] Instance M_ret : MRet M := λ A a, ([], Return a).
#[global] Instance M_bind : MBind M := λ A B f c,
  match c with
  | (t, Return a) => let '(t', r) := f a in (t ++ t', r)
  | (t, ThrowTypeError) => (t, ThrowTypeError)
  end.

Definition emit (e : event) : M unit := ([e], Return tt).

(** A property read inside a computation. *)
Definition read (r : option value) : M value :=
  match r with
  | Some v => mret v
  | None => ([], ThrowTypeError)
  end.

(** ** BrowserConfig *)

(** [this.config.set(key, value)] for each entry. *)
Definition set_all (m : gmap string value) (es : list (string * value))
  : gmap string value :=
  foldl (λ m kv, <[kv.1 := kv.2]> m) m es.

(** [if (!this.config.has(key)) this.config.set(key, value)] for each entry. *)
Definition set_missing (m : gmap string value) (es : list (string * value))
  : gmap string value :=
  foldl (λ m kv, match m !! kv.1 with
                 | Some _ => m
                 | None => <[kv.1 := kv.2]> m
                 end) m es.

Definition with_config (st : state) (m : gmap string value) : state :=
  {| al_integmanager := al_integmanager st; config := m |}.

Section BrowserConfig.
(** [JSON.parse]; [None] when it throws. *)
Variable JSON_parse : string → option value.

Definition BrowserConfig_init (w : world) (st : state) (configObj : value)
  : list event * state :=
  let m1 :=
    if truthy configObj && typeof_object configObj then
      match Object_entries configObj with
      | Some es => set_all (config st) es
      | None => config st
      end
    else config st in
  match localStorage w with
  | None => ([], with_config st m1)
  | Some storage =>
      match storage !! "slack_integration_config" with
      | None => ([], with_config st m1)
      | Some savedConfig =>
          if truthy (VStr savedConfig) then
            match JSON_parse savedConfig ≫= Object_entries with
            | Some es => ([], with_config st (set_missing m1 es))
            | None =>
                ([ConsoleWarn [VStr "Failed to parse saved configuration:"]],
                 with_config st m1)
            end
          else ([], with_config st m1)
      end
  end.
End BrowserConfig.

Definition BrowserConfig_get (st : state) (key : string) : value :=
  default VUndef (config st !! key).

(** ** Credential and channel lookup *)

(** [al_integmanager && al_integmanager.getIntegrationConfig] *)
Definition capability (st : state) : option (string → string → value) :=
  al_integmanager st ≫= getIntegrationConfig.

Definition getApiKey (st : state) : value :=
  match capability st with
  | Some f =>
      let key := f "slack" "apiKey" in
      if truthy key then key else BrowserConfig_get st "apiKey"
  | None => BrowserConfig_get st "apiKey"
  end.

Definition getChannel (st : state) : value :=
  match capability st with
  | Some f =>
      let channel := f "slack" "channel" in
      if truthy channel then channel else BrowserConfig_get st "channel"
  | None => BrowserConfig_get st "channel"
  end.

(** ** Requests *)

Definition SlackBaseUrl : string := "https://slack.com/api".

Definition getUrl (endpoint : string) : string :=
  SlackBaseUrl +:+ "/" +:+ endpoint.

Definition StandardHeaders (st : state) : M (gmap string value) :=
  let apiKey := getApiKey st in
  if negb (truthy apiKey) then
    _ ← emit (ConsoleError [VStr "Slack API key not configured"]);
    mret {[ "Content-Type" := VStr "application/json" ]}
  else
    mret {[ "Authorization" := VStr ("Bearer " +:+ to_string apiKey);
            "Content-Type" := VStr "application/json" ]}.

Definition error_descriptor (msg : value) : value :=
  VObj {[ "error" := msg ]}.

(** The [catch] block of [handleAxiosRequest]. *)
Definition normalize_error (error : value) : M value :=
  response ← read (get_prop error "response");
  if truthy response then
    st ← read (get_prop response "status");
    txt ← read (get_prop response "statusText");
    mret (error_descriptor
            (VStr ("HTTP error! status: " +:+ to_string st +:+ " "
                   +:+ to_string txt)))
  else
    request ← read (get_prop error "request");
    if truthy request then
      mret (error_descriptor (VStr "No response received from server"))
    else
      msg ← read (get_prop error "message");
      mret (error_descriptor msg).

Definition handleAxiosRequest (w : world) (url : string)
    (cfg : AxiosRequestConfig) : M value :=
  match axiosPromise w with
  | Rejected error => normalize_error error
  | Fulfilled axios =>
      _ ← emit (AxiosCall url cfg);
      match axios url cfg with
      | Fulfilled response => mret (data response)
      | Rejected error => normalize_error error
      end
  end.

Definition waitForReply (w : world) (st : state) (thread : value) : M value :=
  let channel := getChannel st in
  if negb (truthy channel) then
    mret (error_descriptor (VStr "Channel not configured"))
  else
    let apiUrl := getUrl ("conversations.replies?ts=" +:+ to_string thread
                          +:+ "&channel=" +:+ to_string channel) in
    _ ← emit (SetTimeout 10000);
    hs ← StandardHeaders st;
    resp ← handleAxiosRequest w apiUrl
             {| method := "GET"; headers := hs; req_data := None |};
    err ← read (get_prop resp "error");
    if truthy err then mret resp
    else
      msgs ← read (get_prop resp "messages");
      if truthy msgs then
        len ← read (get_prop msgs "length");
        if js_ge len 2 then
          entry ← read (get_index msgs (default 0 (to_number len) - 1));
          read (get_prop entry "text")
        else mret (VStr "no response")
      else mret (VStr "no response").

(** [send(channel, message, env)] *)
Definition send (w : world) (st : state) (channel message env : value)
    : M value :=
  let apiUrl := getUrl "chat.postMessage" in
  let slackChannel := getChannel st in
  if negb (truthy slackChannel) then
    mret (error_descriptor (VStr "Slack channel not configured"))
  else
    let messageBody := VObj {[ "channel" := slackChannel; "text" := message ]} in
    hs ← StandardHeaders st;
    result ← handleAxiosRequest w apiUrl
               {| method := "POST"; headers := hs;
                  req_data := Some messageBody |};
    err ← read (get_prop result "error");
    if truthy err then
      _ ← emit (ConsoleError [VStr "Failed to send Slack message:"; err]);
      mret result
    else read (get_prop result "ts").

(** [receive(threadId, env)] *)
Definition receive (w : world) (st : state) (threadId env : value) : M value :=
  response ← waitForReply w st threadId;
  mret response.

(** The events of a trace that reach the network. *)
Definition is_network (e : event) : bool :=
  match e with
  | AxiosCall _ _ => true
  | _ => false
  end.

(** ** Fixtures: concrete environments and states *)

(** An HTTP client that answers every request with status 200 and [body]. *)
Definition respond (body : value) : axios_client :=
  λ _ _, Fulfilled {| status := 200; statusText := "OK"; data := body |}.

(** An HTTP client whose every request is rejected with [error]. *)
Definition fail_with (error : value) : axios_client :=
  λ _ _, Rejected error.

Definition world_of (c : axios_client) : world :=
  {| axiosPromise := Fulfilled c; localStorage := None |}.

(** No integration manager; the local store holds [m]. *)
Definition configured (m : gmap string value) : state :=
  {| al_integmanager := None; config := m |}.

(** An integration manager answering from the table [t] (and [undefined]
    for what it does not hold), over the local store [m]. *)
Definition managed (t : gmap string value) (m : gmap string value) : state :=
  {| al_integmanager :=
       Some {| getIntegrationConfig :=
                 Some (λ _ key, default VUndef (t !! key)) |};
     config := m |}.

(** The request [axios(url, cfg)] fails with [error]: either the client
    never loaded, or the call was rejected. *)
Definition request_fails (w : world) (url : string) (cfg : AxiosRequestConfig)
    (error : value) : Prop :=
  axiosPromise w = Rejected error
  ∨ ∃ axios, axiosPromise w = Fulfilled axios ∧ axios url cfg = Rejected error.

(** The POST that [send] builds in state [st] for [message] is answered
    with [resp]. *)
Definition post_succeeds (w : world) (st : state) (message : value)
    (resp : AxiosResponse) : Prop :=
  ∃ axios, axiosPromise w = Fulfilled axios
    ∧ ∀ log hs, StandardHeaders st = (log, Return hs) →
        axios (getUrl "chat.postMessage")
              {| method := "POST"; headers := hs;
                 req_data := Some (VObj {[ "channel" := getChannel st;
                                           "text" := message ]}) |}
          = Fulfilled resp.

(** The GET that [waitForReply] builds in state [st] for [thread] is
    answered with [resp]. *)
Definition get_succeeds (w : world) (st : state) (thread : value)
    (resp : AxiosResponse) : Prop :=
  ∃ axios, axiosPromise w = Fulfilled axios
    ∧ ∀ log hs, StandardHeaders st = (log, Return hs) →
        axios (getUrl ("conversations.replies?ts=" +:+ to_string thread
                       +:+ "&channel=" +:+ to_string (getChannel st)))
              {| method := "GET"; headers := hs; req_data := None |}
          = Fulfilled resp.

(** Slack's answer to a post it refuses: HTTP 200 with an [error] field. *)
Definition slack_refusal : value :=
  VObj {[ "ok" := VBool false; "error" := VStr "channel_not_found" ]}.

(** An axios error carrying a server response. *)
Definition http_error (code : Z) (text : string) : value :=
  VObj {[ "message" := VStr "Request failed";
          "request" := VObj ∅;
          "response" := VObj {[ "status" := VNum code;
                                "statusText" := VStr text ]} ]}.

(** The stored document [{apiKey: Y, channel: C}], as JSON text, and a
    parser that reads this one document. *)
Definition dquote : string :=
  String (Ascii.Ascii false true false false false true false false)
         EmptyString.

Definition persisted_json : string :=
  "{" +:+ dquote +:+ "apiKey" +:+ dquote +:+ ":" +:+ dquote +:+ "Y" +:+ dquote
  +:+ "," +:+ dquote +:+ "channel" +:+ dquote +:+ ":" +:+ dquote +:+ "C"
  +:+ dquote +:+ "}".

Definition parse_persisted (s : string) : option value :=
  if decide (s = persisted_json)
  then Some (VObj {[ "apiKey" := VStr "Y"; "channel" := VStr "C" ]})
  else None.

Definition browser (saved : string) : world :=
  {| axiosPromise := Rejected VUndef;
     localStorage := Some {[ "slack_integration_config" := saved ]} |}.

(** ** BrowserConfig.set, the loader and the entry point *)

Definition with_manager (st : state) (im : option integrations) : state :=
  {| al_integmanager := im; config := config st |}.

(** The in-memory mapping after the first half of [init] (lines 27-31). *)
Definition merged (st : state) (configObj : value) : gmap string value :=
  if truthy configObj && typeof_object configObj then
    match Object_entries configObj with
    | Some es => set_all (config st) es
    | None => config st
    end
  else config st.

Section Persist.
(** [JSON.stringify], applied to the object built by
    [Object.fromEntries(this.config.entries())]; on an object it always
    returns a string. *)
Variable JSON_stringify : value → string.

(** [BrowserConfig.set(key, value)].  The write goes to memory and, when
    there is a storage, the whole mapping is stored again under the fixed
    item name.  A storage that refuses the write (quota) is not modelled. *)
Definition BrowserConfig_set (w : world) (st : state) (key : string)
    (v : value) : world * state :=
  let st' := with_config st (<[key := v]> (config st)) in
  match localStorage w with
  | Some storage =>
      ({| axiosPromise := axiosPromise w;
          localStorage :=
            Some (<["slack_integration_config" :=
                      JSON_stringify (VObj (config st'))]> storage) |},
       st')
  | None => (w, st')
  end.
End Persist.

(** The module that the dynamic import of agentlang yields:
    [integrations_export] is [module.integrations] when that is truthy,
    [module_manager] is the module namespace itself used as a manager. *)
Record agentlang_module := {
  integrations_export : option integrations;
  module_manager : integrations
}.

(** What [loadIntegrationManager] finds: the outcome of the import, and
    [window.agentlang.integrations] when there is a [window] with a truthy
    [agentlang] (inner [None]: that property is falsy). *)
Record loader := {
  agentlang_import : settled agentlang_module;
  window_agentlang : option (option integrations)
}.

(** [loadIntegrationManager()]: the events, the new state and the value the
    returned promise resolves to. *)
Definition loadIntegrationManager (env : loader) (st : state)
    : list event * state * option integrations :=
  match al_integmanager st with
  | Some im => ([], st, Some im)
  | None =>
      match agentlang_import env with
      | Fulfilled module =>
          let im := match integrations_export module with
                    | Some i => i
                    | None => module_manager module
                    end in
          ([], with_manager st (Some im), Some im)
      | Rejected _ =>
          let warning :=
            ConsoleWarn [VStr
              "Failed to load agentlang from CDN, using fallback configuration"]
          in
          match window_agentlang env with
          | Some im => ([warning], with_manager st im, im)
          | None => ([warning], st, None)
          end
      end
  end.

(** [initializeSlackConfig(config)] *)
Definition initializeSlackConfig (JSON_parse : string → option value)
    (w : world) (env : loader) (st : state) (configObj : value)
    : list event * state * option integrations :=
  let '(t1, st1) := BrowserConfig_init JSON_parse w st configObj in
  let '(t2, st2, r) := loadIntegrationManager env st1 in
  (t1 ++ t2, st2, r).

(** A serializer that writes the one document [parse_persisted] reads. *)
Definition stringify_persisted (v : value) : string := persisted_json.

(** The CDN cannot be reached and the page carries no [agentlang]. *)
Definition offline : loader :=
  {| agentlang_import := Rejected (VObj {[ "message" := VStr "Failed to fetch" ]});
     window_agentlang := None |}.

(** A manager that answers a fixed channel and nothing else. *)
Definition channel_manager (c : string) : integrations :=
  {| getIntegrationConfig :=
       Some (λ _ key, if decide (key = "channel") then VStr c else VUndef) |}.

(** An error raised before any request was built: only a [message]. *)
Definition setup_error (msg : value) : value :=
  VObj {[ "message" := msg ]}.

(** The POST that [send] builds in state [st] for [message] fails with
    [error]. *)
Definition post_fails (w : world) (st : state) (message : value)
    (error : value) : Prop :=
  ∀ log hs, StandardHeaders st = (log, Return hs) →
    request_fails w (getUrl "chat.postMessage")
      {| method := "POST"; headers := hs;
         req_data := Some (VObj {[ "channel" := getChannel st;
                                   "text" := message ]}) |}
      error.

(** The GET that [waitForReply] builds in state [st] for [thread] fails
    with [error]. *)
Definition get_fails (w : world) (st : state) (thread : value)
    (error : value) : Prop :=
  ∀ log hs, StandardHeaders st = (log, Return hs) →
    request_fails w
      (getUrl ("conversations.replies?ts=" +:+ to_string thread
               +:+ "&channel=" +:+ to_string (getChannel st)))
      {| method := "GET"; headers := hs; req_data := None |}
      error.

(** * Properties *)

(** ** The value model on small inputs *)

Example to_string_array :
  to_string (VArr [VNum 1; VNull; VStr "a"; VArr [VBool true; VUndef]])
  = "1,,a,true,".
Proof. reflexivity. Qed.

Example template_status :
  "HTTP error! status: " +:+ to_string (VNum 429) +:+ " "
  +:+ to_string (VStr "Too Many Requests")
  = "HTTP error! status: 429 Too Many Requests".
Proof. reflexivity. Qed.

Example get_prop_null : get_prop VNull "error" = None.
Proof. reflexivity. Qed.

Example get_prop_string_body : get_prop (VStr "ok") "error" = Some VUndef.
Proof. reflexivity. Qed.

Example get_index_string : get_index (VStr "ab") 1 = Some (VStr "b").
Proof. reflexivity. Qed.

Example length_as_text : js_ge (VStr "10") 2 = true ∧ js_ge VUndef 2 = false.
Proof. split; reflexivity. Qed.

Example getUrl_post :
  getUrl "chat.postMessage" = "https://slack.com/api/chat.postMessage".
Proof. reflexivity. Qed.

(** A corrupt persisted document is logged and ignored. *)
Example init_corrupt_persisted :
  BrowserConfig_init parse_persisted (browser "{oops") initial_state
    (VObj {[ "apiKey" := VStr "X" ]})
  = ([ConsoleWarn [VStr "Failed to parse saved configuration:"]],
     configured {[ "apiKey" := VStr "X" ]}).
Proof. reflexivity. Qed.

(** A reply poll, end to end: timer, then the GET with the resolved
    channel and thread in the query. *)
Example receive_trace :
  (receive (world_of (respond (VObj {[ "messages" := VArr [] ]})))
           (configured {[ "channel" := VStr "C1"; "apiKey" := VStr "k" ]})
           (VStr "T1") VUndef).1
  = [ SetTimeout 10000;
      AxiosCall
        "https://slack.com/api/conversations.replies?ts=T1&channel=C1"
        {| method := "GET";
           headers := {[ "Authorization" := VStr "Bearer k";
                         "Content-Type" := VStr "application/json" ]};
           req_data := None |} ].
Proof. vm_compute. reflexivity. Qed.

(** ** Traces *)

Lemma bind_trace {A B} (c : M A) (f : A → M B) :
  (c ≫= f).1 = c.1 ++ match c.2 with
                       | Return a => (f a).1
                       | ThrowTypeError => []
                       end.
Proof.
  destruct c as [t [a|]]; cbn.
  - by destruct (f a).
  - by rewrite app_nil_r.
Qed.

Lemma read_trace r : (read r).1 = [].
Proof. by destruct r. Qed.

Lemma normalize_error_trace error : (normalize_error error).1 = [].
Proof.
  unfold normalize_error.
  destruct (get_prop error "response") as [response|]; [|done]; cbn.
  destruct (truthy response) eqn:Hr.
  - destruct response; try discriminate; done.
  - destruct (get_prop error "request") as [request|]; [|done]; cbn.
    destruct (truthy request); [done|].
    by destruct (get_prop error "message").
Qed.

Lemma handleAxiosRequest_trace w url cfg :
  (handleAxiosRequest w url cfg).1 =
    match axiosPromise w with
    | Fulfilled _ => [AxiosCall url cfg]
    | Rejected _ => []
    end.
Proof.
  unfold handleAxiosRequest.
  destruct (axiosPromise w) as [axios|error].
  - cbn. destruct (axios url cfg) as [response|error]; [done|].
    pose proof (normalize_error_trace error) as H.
    destruct (normalize_error error) as [t r]. cbn in *. by subst.
  - apply normalize_error_trace.
Qed.

Lemma StandardHeaders_cases st :
  StandardHeaders st =
    if truthy (getApiKey st) then
      ([], Return {[ "Authorization" :=
                       VStr ("Bearer " +:+ to_string (getApiKey st));
                     "Content-Type" := VStr "application/json" ]})
    else
      ([ConsoleError [VStr "Slack API key not configured"]],
       Return {[ "Content-Type" := VStr "application/json" ]}).
Proof. unfold StandardHeaders. by destruct (truthy (getApiKey st)). Qed.

(** ** Missing channel *)

(** C1: when the channel resolves to a falsy (empty or absent) value,
    [send] returns [{error: 'Slack channel not configured'}] and its trace
    is empty: no network request (and no other effect) happens. *)
Theorem send_channel_not_configured w st channel message env :
  truthy (getChannel st) = false →
  (send w st channel message env).2
    = Return (VObj {[ "error" := VStr "Slack channel not configured" ]})
  ∧ (send w st channel message env).1 = [].
Proof. intros H. unfold send. by rewrite H. Qed.

Lemma send_channel_not_configured_witness :
  (send (world_of (respond (VObj {[ "ts" := VStr "1.0" ]})))
        (configured {[ "channel" := VStr "" ]})
        (VStr "C042") (VStr "hello") VUndef).2
    = Return (VObj {[ "error" := VStr "Slack channel not configured" ]})
  ∧ (send (world_of (respond (VObj {[ "ts" := VStr "1.0" ]})))
          (configured {[ "channel" := VStr "" ]})
          (VStr "C042") (VStr "hello") VUndef).1 = [].
Proof. apply send_channel_not_configured. reflexivity. Defined.

(** C5: when the channel resolves to a falsy value, [receive] returns
    [{error: 'Channel not configured'}] with an empty trace: the answer
    comes before the timer is set and before any network request. *)
Theorem receive_channel_not_configured w st threadId env :
  truthy (getChannel st) = false →
  (receive w st threadId env).2
    = Return (VObj {[ "error" := VStr "Channel not configured" ]})
  ∧ (receive w st threadId env).1 = [].
Proof. intros H. unfold receive, waitForReply. by rewrite H. Qed.

Lemma receive_channel_not_configured_witness :
  (receive (world_of (respond (VObj {[ "messages" := VArr [] ]})))
           initial_state (VStr "T1") VUndef).2
    = Return (VObj {[ "error" := VStr "Channel not configured" ]})
  ∧ (receive (world_of (respond (VObj {[ "messages" := VArr [] ]})))
             initial_state (VStr "T1") VUndef).1 = [].
Proof. apply receive_channel_not_configured. reflexivity. Defined.

(** ** Two-tier lookup *)

Lemma getApiKey_with_config st m :
  getApiKey (with_config st m) =
    match capability st with
    | Some f => if truthy (f "slack" "apiKey") then f "slack" "apiKey"
                else default VUndef (m !! "apiKey")
    | None => default VUndef (m !! "apiKey")
    end.
Proof. done. Qed.

Lemma getChannel_with_config st m :
  getChannel (with_config st m) =
    match capability st with
    | Some f => if truthy (f "slack" "channel") then f "slack" "channel"
                else default VUndef (m !! "channel")
    | None => default VUndef (m !! "channel")
    end.
Proof. done. Qed.

(** C7: both lookups ask the integration manager first, under the
    ["slack"] namespace.  A truthy answer is the result whatever the local
    store holds; the result is the local store's [get] exactly when the
    capability is absent or its answer is falsy. *)
Theorem lookup_manager_then_local st :
  (∀ f, capability st = Some f → truthy (f "slack" "apiKey") = true →
        ∀ m, getApiKey (with_config st m) = f "slack" "apiKey")
  ∧ (∀ f, capability st = Some f → truthy (f "slack" "channel") = true →
          ∀ m, getChannel (with_config st m) = f "slack" "channel")
  ∧ ((∀ m, getApiKey (with_config st m)
             = BrowserConfig_get (with_config st m) "apiKey")
     ↔ (capability st = None
        ∨ ∃ f, capability st = Some f ∧ truthy (f "slack" "apiKey") = false))
  ∧ ((∀ m, getChannel (with_config st m)
             = BrowserConfig_get (with_config st m) "channel")
     ↔ (capability st = None
        ∨ ∃ f, capability st = Some f ∧ truthy (f "slack" "channel") = false)).
Proof.
  repeat split.
  - intros f Hf Ht m. rewrite getApiKey_with_config, Hf. by rewrite Ht.
  - intros f Hf Ht m. rewrite getChannel_with_config, Hf. by rewrite Ht.
  - intros H. destruct (capability st) as [f|] eqn:Hf; [|by left].
    right. exists f. split; [done|].
    destruct (truthy (f "slack" "apiKey")) eqn:Ht; [|done].
    specialize (H ∅). rewrite getApiKey_with_config, Hf, Ht in H.
    rewrite H in Ht. discriminate.
  - intros [Hf|(f & Hf & Ht)] m; rewrite getApiKey_with_config, Hf;
      [done | by rewrite Ht].
  - intros H. destruct (capability st) as [f|] eqn:Hf; [|by left].
    right. exists f. split; [done|].
    destruct (truthy (f "slack" "channel")) eqn:Ht; [|done].
    specialize (H ∅). rewrite getChannel_with_config, Hf, Ht in H.
    rewrite H in Ht. discriminate.
  - intros [Hf|(f & Hf & Ht)] m; rewrite getChannel_with_config, Hf;
      [done | by rewrite Ht].
Qed.

(** The manager holds a channel and an empty API key; the local store holds
    other values for both: the channel is the manager's, the key falls back
    to the store. *)
Lemma lookup_manager_then_local_witness :
  getChannel (managed {[ "channel" := VStr "C-im"; "apiKey" := VStr "" ]}
                      {[ "channel" := VStr "C-local";
                         "apiKey" := VStr "xoxb-local" ]}) = VStr "C-im"
  ∧ getApiKey (managed {[ "channel" := VStr "C-im"; "apiKey" := VStr "" ]}
                       {[ "channel" := VStr "C-local";
                          "apiKey" := VStr "xoxb-local" ]})
      = VStr "xoxb-local".
Proof.
  pose (t := ({[ "channel" := VStr "C-im"; "apiKey" := VStr "" ]}
              : gmap string value)).
  pose (m := ({[ "channel" := VStr "C-local"; "apiKey" := VStr "xoxb-local" ]}
              : gmap string value)).
  destruct (lookup_manager_then_local (managed t ∅)) as (_ & Hc & Hk & _).
  split.
  - exact (Hc (λ _ key, default VUndef (t !! key)) eq_refl eq_refl m).
  - refine (proj2 Hk _ m). right.
    exists (λ _ key, default VUndef (t !! key)). split; reflexivity.
Defined.

(** ** The channel parameter *)

(** C8: [send] never looks at its [channel] argument.  Two calls that
    differ only in it perform the same events and end the same way, and any
    request on the trace goes to the message-post endpoint with the body
    [{channel: <resolved channel>, text: message}]. *)
Theorem send_ignores_channel_argument w st channel1 channel2 message env :
  send w st channel1 message env = send w st channel2 message env
  ∧ ∀ url cfg, AxiosCall url cfg ∈ (send w st channel1 message env).1 →
      url = getUrl "chat.postMessage"
      ∧ req_data cfg
          = Some (VObj {[ "channel" := getChannel st; "text" := message ]}).
Proof.
  split; [done|].
  intros url cfg. unfold send.
  destruct (truthy (getChannel st)); cbn [negb]; [|by intros ?%elem_of_nil].
  rewrite bind_trace, StandardHeaders_cases.
  destruct (truthy (getApiKey st)); cbn [fst snd];
    rewrite bind_trace, handleAxiosRequest_trace;
    (destruct (handleAxiosRequest w _ _) as [t [result|]] eqn:Hh;
     cbn [fst snd];
     [ rewrite bind_trace, read_trace;
       destruct (get_prop result "error") as [err|]; cbn [read fst snd mret M_ret];
       [ destruct (truthy err); [cbn|rewrite read_trace] | ]
     | ]);
    destruct (axiosPromise w); cbn;
    rewrite ?elem_of_cons, ?elem_of_nil; intros H;
    repeat (destruct H as [H|H]); try done; by inversion H.
Qed.

(** ** Headers *)

(** C9: [StandardHeaders] always returns a mapping with
    ["Content-Type": "application/json"]; it carries
    ["Authorization": "Bearer <apiKey>"] and logs nothing when the API key
    resolves to a truthy value, and has no ["Authorization"] entry and logs
    the missing key otherwise.  A missing key does not stop [send]: with a
    channel resolved and the HTTP client loaded, the log entry is followed by
    the POST, whose headers have no ["Authorization"]. *)
Theorem StandardHeaders_spec w st channel message env :
  ∃ log hs,
    StandardHeaders st = (log, Return hs)
    ∧ hs !! "Content-Type" = Some (VStr "application/json")
    ∧ (truthy (getApiKey st) = true →
         hs !! "Authorization"
           = Some (VStr ("Bearer " +:+ to_string (getApiKey st)))
         ∧ log = [])
    ∧ (truthy (getApiKey st) = false →
         hs !! "Authorization" = None
         ∧ log = [ConsoleError [VStr "Slack API key not configured"]]
         ∧ (truthy (getChannel st) = true →
            ∀ axios, axiosPromise w = Fulfilled axios →
              ∃ cfg rest,
                (send w st channel message env).1
                  = ConsoleError [VStr "Slack API key not configured"]
                      :: AxiosCall (getUrl "chat.postMessage") cfg :: rest
                ∧ method cfg = "POST"
                ∧ headers cfg = hs)).
Proof.
  rewrite StandardHeaders_cases.
  destruct (truthy (getApiKey st)) eqn:Hk; eexists _, _;
    (split; [reflexivity|]); (split; [done|]); split; try done.
  intros _. do 2 (split; [done|]).
  intros Hc axios Ha. unfold send. rewrite Hc. cbn [negb].
  rewrite StandardHeaders_cases, Hk.
  rewrite bind_trace. cbn [fst snd].
  rewrite bind_trace, handleAxiosRequest_trace, Ha.
  eexists _, _. split; [reflexivity|]. done.
Qed.

(** No manager, no stored key, a stored channel: the key's absence is
    logged, then the POST is issued without an [Authorization] header. *)
Lemma StandardHeaders_spec_witness :
  ∃ hs cfg rest,
    StandardHeaders (configured {[ "channel" := VStr "C1" ]})
      = ([ConsoleError [VStr "Slack API key not configured"]], Return hs)
    ∧ hs !! "Content-Type" = Some (VStr "application/json")
    ∧ hs !! "Authorization" = None
    ∧ (send (world_of (respond (VObj {[ "ts" := VStr "1.0" ]})))
            (configured {[ "channel" := VStr "C1" ]})
            (VStr "ignored") (VStr "hello") VUndef).1
        = ConsoleError [VStr "Slack API key not configured"]
            :: AxiosCall "https://slack.com/api/chat.postMessage" cfg :: rest
    ∧ headers cfg = hs.
Proof.
  destruct (StandardHeaders_spec
              (world_of (respond (VObj {[ "ts" := VStr "1.0" ]})))
              (configured {[ "channel" := VStr "C1" ]})
              (VStr "ignored") (VStr "hello") VUndef)
    as (log & hs & Heq & Hct & _ & Hno).
  destruct (Hno eq_refl) as (Hauth & Hlog & Hsend).
  destruct (Hsend eq_refl _ eq_refl) as (cfg & rest & Htr & _ & Hhs).
  exists hs, cfg, rest. subst log. repeat split; assumption.
Defined.

(** ** Results *)

Lemma bind_result {A B} (c : M A) (f : A → M B) :
  (c ≫= f).2 = match c.2 with
               | Return a => (f a).2
               | ThrowTypeError => ThrowTypeError
               end.
Proof.
  destruct c as [t [a|]]; cbn; [|done]. by destruct (f a).
Qed.

Lemma read_bind {B} (v : value) (f : value → M B) :
  read (Some v) ≫= f = f v.
Proof. cbn. by destruct (f v). Qed.

Lemma StandardHeaders_returns st :
  ∃ log hs, StandardHeaders st = (log, Return hs).
Proof.
  rewrite StandardHeaders_cases. destruct (truthy (getApiKey st)); eauto.
Qed.

Lemma handleAxiosRequest_fulfilled w url cfg axios resp :
  axiosPromise w = Fulfilled axios →
  axios url cfg = Fulfilled resp →
  handleAxiosRequest w url cfg = ([AxiosCall url cfg], Return (data resp)).
Proof. intros Ha Hr. unfold handleAxiosRequest. by rewrite Ha; cbn; rewrite Hr. Qed.

Lemma handleAxiosRequest_failed w url cfg error :
  request_fails w url cfg error →
  (handleAxiosRequest w url cfg).2 = (normalize_error error).2.
Proof.
  unfold handleAxiosRequest.
  intros [Ha|(axios & Ha & Hr)]; rewrite Ha; [done|].
  cbn. rewrite Hr. by destruct (normalize_error error).
Qed.

(** What [send] does with the body of a fulfilled POST. *)
Lemma send_fulfilled w st channel message env resp :
  truthy (getChannel st) = true →
  post_succeeds w st message resp →
  (send w st channel message env).2 =
    match get_prop (data resp) "error" with
    | None => ThrowTypeError
    | Some err =>
        if truthy err then Return (data resp)
        else match get_prop (data resp) "ts" with
             | Some ts => Return ts
             | None => ThrowTypeError
             end
    end.
Proof.
  intros Hc (axios & Ha & Hr). unfold send. rewrite Hc. cbn [negb].
  destruct (StandardHeaders_returns st) as (log & hs & Hs).
  rewrite Hs, bind_result. cbn [snd].
  rewrite (handleAxiosRequest_fulfilled _ _ _ _ _ Ha (Hr _ _ Hs)).
  rewrite bind_result. cbn [snd]. rewrite bind_result.
  destruct (get_prop (data resp) "error") as [err|]; [|done]. cbn [read snd mret M_ret].
  destruct (truthy err); [done|].
  by destruct (get_prop (data resp) "ts").
Qed.

(** ** Failed requests *)

(** C3: a failed request always ends in an error descriptor, chosen among
    three cases by the error that was thrown: with a (truthy) [response] the
    message is ["HTTP error! status: <status> <statusText>"]; without one but
    with a [request] it is the fixed no-response message; with neither it is
    the error's own [message]. *)
Theorem handleAxiosRequest_error_cases w url cfg error response :
  request_fails w url cfg error →
  get_prop error "response" = Some response →
  (truthy response = true →
     ∃ st txt,
       get_prop response "status" = Some st
       ∧ get_prop response "statusText" = Some txt
       ∧ (handleAxiosRequest w url cfg).2
           = Return (VObj {[ "error" :=
                 VStr ("HTTP error! status: " +:+ to_string st +:+ " "
                       +:+ to_string txt) ]}))
  ∧ (truthy response = false →
     ∃ request msg,
       get_prop error "request" = Some request
       ∧ get_prop error "message" = Some msg
       ∧ (truthy request = true →
            (handleAxiosRequest w url cfg).2
              = Return (VObj {[ "error" :=
                                  VStr "No response received from server" ]}))
       ∧ (truthy request = false →
            (handleAxiosRequest w url cfg).2
              = Return (VObj {[ "error" := msg ]}))).
Proof.
  intros Hf Hresp. rewrite (handleAxiosRequest_failed _ _ _ _ Hf).
  unfold normalize_error. rewrite Hresp, read_bind.
  split; intros Ht; rewrite Ht.
  - assert (∃ st, get_prop response "status" = Some st) as [st Hst]
      by (destruct response; try discriminate; eauto).
    assert (∃ txt, get_prop response "statusText" = Some txt) as [txt Htxt]
      by (destruct response; try discriminate; eauto).
    exists st, txt. do 2 (split; [done|]).
    by rewrite Hst, read_bind, Htxt, read_bind.
  - assert (∃ request, get_prop error "request" = Some request) as [request Hrq]
      by (destruct error; try discriminate; eauto).
    assert (∃ msg, get_prop error "message" = Some msg) as [msg Hmsg]
      by (destruct error; try discriminate; eauto).
    exists request, msg. do 2 (split; [done|]).
    rewrite Hrq, read_bind.
    split; intros Hq; rewrite Hq; [done|]. by rewrite Hmsg, read_bind.
Qed.

(** Status 429 with text "Too Many Requests". *)
Lemma handleAxiosRequest_error_cases_witness :
  (handleAxiosRequest
     (world_of (fail_with (http_error 429 "Too Many Requests")))
     "https://slack.com/api/chat.postMessage"
     {| method := "POST"; headers := ∅; req_data := None |}).2
    = Return (VObj {[ "error" :=
                        VStr "HTTP error! status: 429 Too Many Requests" ]}).
Proof.
  destruct (handleAxiosRequest_error_cases
              (world_of (fail_with (http_error 429 "Too Many Requests")))
              "https://slack.com/api/chat.postMessage"
              {| method := "POST"; headers := ∅; req_data := None |}
              (http_error 429 "Too Many Requests")
              (VObj {[ "status" := VNum 429;
                       "statusText" := VStr "Too Many Requests" ]}))
    as [H _].
  - right. eexists. split; reflexivity.
  - reflexivity.
  - destruct (H eq_refl) as (st & txt & Hst & Htxt & Hr).
    rewrite Hr. vm_compute in Hst, Htxt.
    injection Hst as <-. injection Htxt as <-. reflexivity.
Defined.

(** The same failure seen through [send]: the descriptor is logged and
    returned as it is. *)
Example send_rate_limited :
  send (world_of (fail_with (http_error 429 "Too Many Requests")))
       (configured {[ "channel" := VStr "C1"; "apiKey" := VStr "xoxb-1" ]})
       (VStr "C1") (VStr "hello") VUndef
  = ([ AxiosCall "https://slack.com/api/chat.postMessage"
         {| method := "POST";
            headers := {[ "Authorization" := VStr "Bearer xoxb-1";
                          "Content-Type" := VStr "application/json" ]};
            req_data := Some (VObj {[ "channel" := VStr "C1";
                                      "text" := VStr "hello" ]}) |};
       ConsoleError [ VStr "Failed to send Slack message:";
                      VStr "HTTP error! status: 429 Too Many Requests" ] ],
     Return (VObj {[ "error" :=
                       VStr "HTTP error! status: 429 Too Many Requests" ]})).
Proof. vm_compute. reflexivity. Qed.

(** ** Successful posts *)

(** Slack refuses the post with HTTP 200: the POST succeeds, the body has
    no [ts], and [send] returns the body. *)
Example send_slack_refusal :
  (send (world_of (respond slack_refusal))
        (configured {[ "channel" := VStr "C1" ]})
        (VStr "C1") (VStr "hello") VUndef).2
  = Return slack_refusal.
Proof. vm_compute. reflexivity. Qed.

(** C2, as stated, fails: a POST that succeeds with a body whose [error]
    field is truthy makes [send] return that body, not the body's [ts]. *)
Lemma send_returns_ts_of_every_success_fails :
  ¬ (∀ w st channel message env resp ts,
       truthy (getChannel st) = true →
       post_succeeds w st message resp →
       get_prop (data resp) "ts" = Some ts →
       (send w st channel message env).2 = Return ts).
Proof.
  intros H.
  specialize (H (world_of (respond slack_refusal))
                (configured {[ "channel" := VStr "C1" ]})
                (VStr "C1") (VStr "hello") VUndef
                {| status := 200; statusText := "OK"; data := slack_refusal |}
                VUndef eq_refl).
  rewrite send_slack_refusal in H.
  discriminate H; [|reflexivity].
  eexists. split; [reflexivity|]. intros log hs _. reflexivity.
Qed.

(** C2, amended: when the channel resolves, the POST succeeds and the
    body's [error] field is falsy, [send] returns exactly the value of the
    body's [ts] field. *)
Theorem send_returns_ts w st channel message env resp err :
  truthy (getChannel st) = true →
  post_succeeds w st message resp →
  get_prop (data resp) "error" = Some err →
  truthy err = false →
  ∃ ts, get_prop (data resp) "ts" = Some ts
        ∧ (send w st channel message env).2 = Return ts.
Proof.
  intros Hc Hp He Ht. rewrite (send_fulfilled _ _ _ _ _ _ Hc Hp), He, Ht.
  destruct (data resp); try discriminate; eauto.
Qed.

(** The provider answers [{ts: "123.45"}]. *)
Lemma send_returns_ts_witness :
  (send (world_of (respond (VObj {[ "ts" := VStr "123.45" ]})))
        (configured {[ "channel" := VStr "C1"; "apiKey" := VStr "xoxb-1" ]})
        (VStr "C1") (VStr "hello") VUndef).2
  = Return (VStr "123.45").
Proof.
  destruct (send_returns_ts
              (world_of (respond (VObj {[ "ts" := VStr "123.45" ]})))
              (configured {[ "channel" := VStr "C1";
                             "apiKey" := VStr "xoxb-1" ]})
              (VStr "C1") (VStr "hello") VUndef
              {| status := 200; statusText := "OK";
                 data := VObj {[ "ts" := VStr "123.45" ]} |}
              VUndef)
    as (ts & Hts & Hr).
  - reflexivity.
  - eexists. split; [reflexivity|]. intros log hs _. reflexivity.
  - reflexivity.
  - reflexivity.
  - rewrite Hr. vm_compute in Hts. by injection Hts as <-.
Defined.

(** C10: when the channel resolves and the POST succeeds with an object
    body whose [error] field is falsy and which has no [ts] field, [send]
    returns [undefined], not an error descriptor. *)
Theorem send_missing_ts_returns_undefined w st channel message env resp body :
  truthy (getChannel st) = true →
  post_succeeds w st message resp →
  data resp = VObj body →
  truthy (default VUndef (body !! "error")) = false →
  body !! "ts" = None →
  (send w st channel message env).2 = Return VUndef.
Proof.
  intros Hc Hp Hb He Hts. rewrite (send_fulfilled _ _ _ _ _ _ Hc Hp), Hb.
  cbn [get_prop]. by rewrite He, Hts.
Qed.

Lemma send_missing_ts_returns_undefined_witness :
  (send (world_of (respond (VObj {[ "ok" := VBool true ]})))
        (configured {[ "channel" := VStr "C1" ]})
        (VStr "C1") (VStr "hello") VUndef).2
  = Return VUndef.
Proof.
  apply (send_missing_ts_returns_undefined _ _ _ _ _
           {| status := 200; statusText := "OK";
              data := VObj {[ "ok" := VBool true ]} |}
           {[ "ok" := VBool true ]}).
  - reflexivity.
  - eexists. split; [reflexivity|]. intros log hs _. reflexivity.
  - reflexivity.
  - reflexivity.
  - reflexivity.
Defined.

(** ** Arrays *)

Lemma pretty_N_go_ne_length x s : s ≠ "length" → pretty_N_go x s ≠ "length".
Proof.
  revert s. induction (N.lt_wf_0 x) as [x _ IH]; intros s Hs.
  assert (x = 0 ∨ 0 < x)%N as [->|Hx] by lia.
  - by rewrite pretty_N_go_0.
  - rewrite pretty_N_go_step by done. apply IH.
    + by apply N.div_lt.
    + unfold pretty_N_char. by repeat case_match.
Qed.

Lemma pretty_Z_ne_length (n : Z) : pretty n ≠ "length".
Proof.
  destruct n as [|p|p]; [done| |done].
  unfold pretty, pretty_Z, pretty, pretty_positive, pretty, pretty_N.
  case_decide; [done|]. by apply pretty_N_go_ne_length.
Qed.

Lemma lookup_index_pretty l (i j : nat) :
  lookup_index (pretty (Z.of_nat (i + j))) i l = l !! j.
Proof.
  revert i j. induction l as [|x l IH]; intros i j; [done|].
  cbn [lookup_index]. case_decide as Hd.
  - apply (inj _) in Hd. assert (j = 0%nat) as -> by lia. done.
  - destruct j as [|j].
    + rewrite Nat.add_0_r in Hd. done.
    + replace (i + S j)%nat with (S i + j)%nat by lia. by rewrite IH.
Qed.

Lemma array_length l :
  get_prop (VArr l) "length" = Some (VNum (Z.of_nat (length l))).
Proof. done. Qed.

Lemma array_last l (n : Z) :
  n = Z.of_nat (length l) →
  get_index (VArr l) (n - 1) = Some (default VUndef (last l)).
Proof.
  intros ->. unfold get_index. cbn [to_string get_prop]. f_equal.
  unfold indexed_prop. case_decide as Hd; [by apply pretty_Z_ne_length in Hd|].
  destruct l as [|x l]; [done|].
  replace (Z.of_nat (length (x :: l)) - 1) with (Z.of_nat (0 + length l))
    by (cbn [length]; lia).
  rewrite lookup_index_pretty, last_lookup. done.
Qed.

(** ** Replies *)

(** What [waitForReply] does with the body of a fulfilled GET. *)
Lemma waitForReply_fulfilled w st thread resp :
  truthy (getChannel st) = true →
  get_succeeds w st thread resp →
  ∃ rest,
    (waitForReply w st thread).1 = SetTimeout 10000 :: rest
    ∧ (waitForReply w st thread).2 =
        (err ← read (get_prop (data resp) "error");
         if truthy err then mret (data resp)
         else
           msgs ← read (get_prop (data resp) "messages");
           if truthy msgs then
             len ← read (get_prop msgs "length");
             if js_ge len 2 then
               entry ← read (get_index msgs (default 0 (to_number len) - 1));
               read (get_prop entry "text")
             else mret (VStr "no response")
           else mret (VStr "no response")).2.
Proof.
  intros Hc (axios & Ha & Hr). unfold waitForReply. rewrite Hc. cbn [negb].
  destruct (StandardHeaders_returns st) as (log & hs & Hs).
  eexists. split.
  - rewrite bind_trace. cbn [emit fst snd app]. reflexivity.
  - rewrite bind_result. cbn [emit snd].
    rewrite Hs, bind_result. cbn [snd].
    rewrite (handleAxiosRequest_fulfilled _ _ _ _ _ Ha (Hr _ _ Hs)).
    rewrite bind_result. cbn [snd]. reflexivity.
Qed.

Lemma receive_waitForReply w st threadId env :
  receive w st threadId env = waitForReply w st threadId.
Proof.
  unfold receive. destruct (waitForReply w st threadId) as [t [v|]]; cbn;
    by rewrite ?app_nil_r.
Qed.

(** C4: when the channel resolves and the GET succeeds with a body whose
    [error] field is falsy and whose [messages] is a list, [receive] first
    sets the 10-second timer; it returns the [text] of the last entry when
    the list has at least two entries, and ["no response"] when it has
    fewer. *)
Theorem receive_last_text_or_no_response w st threadId env resp err msgs :
  truthy (getChannel st) = true →
  get_succeeds w st threadId resp →
  get_prop (data resp) "error" = Some err →
  truthy err = false →
  get_prop (data resp) "messages" = Some (VArr msgs) →
  head (receive w st threadId env).1 = Some (SetTimeout 10000)
  ∧ ((2 ≤ length msgs)%nat →
       ∀ entry text, last msgs = Some entry →
         get_prop entry "text" = Some text →
         (receive w st threadId env).2 = Return text)
  ∧ ((length msgs < 2)%nat →
       (receive w st threadId env).2 = Return (VStr "no response")).
Proof.
  intros Hc Hg He Ht Hm. rewrite receive_waitForReply.
  destruct (waitForReply_fulfilled _ _ _ _ Hc Hg) as (rest & Htr & Hres).
  rewrite Htr, Hres, He, read_bind, Ht, Hm, read_bind.
  cbn [truthy]. rewrite array_length, read_bind.
  unfold js_ge. cbn [to_number default from_option id].
  split_and!; [done| |].
  - intros Hlen entry text Hlast Htext.
    destruct (2 <=? Z.of_nat (length msgs)) eqn:Hle; [|lia].
    rewrite (array_last msgs _ eq_refl), Hlast.
    cbn [default from_option id]. rewrite read_bind. by rewrite Htext.
  - intros Hlen. destruct (2 <=? Z.of_nat (length msgs)) eqn:Hle; [lia|done].
Qed.

(** [receive("T1")] on a thread holding only the original message, and on a
    thread with two replies. *)
Lemma receive_last_text_or_no_response_witness :
  (receive (world_of (respond (VObj {[ "messages" :=
              VArr [VObj {[ "text" := VStr "a" ]}] ]})))
           (configured {[ "channel" := VStr "C1" ]})
           (VStr "T1") VUndef).2
    = Return (VStr "no response")
  ∧ (receive (world_of (respond (VObj {[ "messages" :=
                VArr [VObj {[ "text" := VStr "a" ]};
                      VObj {[ "text" := VStr "b" ]};
                      VObj {[ "text" := VStr "c" ]}] ]})))
             (configured {[ "channel" := VStr "C1" ]})
             (VStr "T1") VUndef).2
      = Return (VStr "c").
Proof.
  split.
  - refine (proj2 (proj2 (receive_last_text_or_no_response
      (world_of (respond (VObj {[ "messages" :=
         VArr [VObj {[ "text" := VStr "a" ]}] ]})))
      (configured {[ "channel" := VStr "C1" ]}) (VStr "T1") VUndef
      {| status := 200; statusText := "OK";
         data := VObj {[ "messages" :=
                   VArr [VObj {[ "text" := VStr "a" ]}] ]} |}
      VUndef [VObj {[ "text" := VStr "a" ]}] _ _ _ _ _)) _);
      try reflexivity.
    + eexists. split; [reflexivity|]. intros log hs _. reflexivity.
    + cbn. lia.
  - refine (proj1 (proj2 (receive_last_text_or_no_response
      (world_of (respond (VObj {[ "messages" :=
         VArr [VObj {[ "text" := VStr "a" ]};
               VObj {[ "text" := VStr "b" ]};
               VObj {[ "text" := VStr "c" ]}] ]})))
      (configured {[ "channel" := VStr "C1" ]}) (VStr "T1") VUndef
      {| status := 200; statusText := "OK";
         data := VObj {[ "messages" :=
                   VArr [VObj {[ "text" := VStr "a" ]};
                         VObj {[ "text" := VStr "b" ]};
                         VObj {[ "text" := VStr "c" ]}] ]} |}
      VUndef [VObj {[ "text" := VStr "a" ]};
              VObj {[ "text" := VStr "b" ]};
              VObj {[ "text" := VStr "c" ]}] _ _ _ _ _))
      _ (VObj {[ "text" := VStr "c" ]}) (VStr "c") _ _);
      try reflexivity.
    + eexists. split; [reflexivity|]. intros log hs _. reflexivity.
    + cbn. lia.
Defined.

(** ** Initialisation *)

Lemma set_all_union (m : gmap string value) (es : list (string * value)) :
  NoDup es.*1 → set_all m es = list_to_map es ∪ m.
Proof.
  unfold set_all. revert m. induction es as [|[k v] es IH]; intros m Hnd.
  - cbn. by rewrite (left_id_L ∅ (∪)).
  - apply NoDup_cons in Hnd as [Hk Hnd]. cbn [foldl fst snd].
    rewrite IH, list_to_map_cons by done. apply map_eq. intros i.
    rewrite !lookup_union. destruct (decide (k = i)) as [->|Hne].
    + rewrite !lookup_insert_eq, (not_elem_of_list_to_map_1 _ _ Hk).
      by destruct (m !! i).
    + by rewrite !lookup_insert_ne.
Qed.

Lemma set_missing_union (m : gmap string value) (es : list (string * value)) :
  NoDup es.*1 → set_missing m es = m ∪ list_to_map es.
Proof.
  unfold set_missing. revert m. induction es as [|[k v] es IH]; intros m Hnd.
  - cbn. by rewrite (right_id_L ∅ (∪)).
  - apply NoDup_cons in Hnd as [Hk Hnd]. cbn [foldl fst snd].
    rewrite IH, list_to_map_cons by done. apply map_eq. intros i.
    rewrite !lookup_union. destruct (decide (k = i)) as [->|Hne].
    + rewrite lookup_insert_eq, (not_elem_of_list_to_map_1 _ _ Hk).
      destruct (m !! i) eqn:Hm; [by rewrite Hm|].
      by rewrite lookup_insert_eq.
    + rewrite lookup_insert_ne by done.
      destruct (m !! k); [done|]. by rewrite lookup_insert_ne.
Qed.

(** C6: [init] puts every entry of the initial mapping into the in-memory
    mapping, then adds from the persisted mapping only the keys that are
    still missing.  A key of the initial mapping therefore reads back with
    its initial value whatever the persisted store holds, and a persisted
    value is read only for a key that neither the initial mapping nor the
    memory held. *)
Theorem init_explicit_over_persisted JSON_parse w st initial persisted
    storage saved :
  localStorage w = Some storage →
  storage !! "slack_integration_config" = Some saved →
  truthy (VStr saved) = true →
  JSON_parse saved = Some (VObj persisted) →
  config (BrowserConfig_init JSON_parse w st (VObj initial)).2
    = (initial ∪ config st) ∪ persisted
  ∧ ∀ key,
      BrowserConfig_get (BrowserConfig_init JSON_parse w st (VObj initial)).2
                        key
      = match initial !! key with
        | Some v => v
        | None =>
            match config st !! key with
            | Some v => v
            | None => default VUndef (persisted !! key)
            end
        end.
Proof.
  intros Hw Hs Ht Hp.
  assert (config (BrowserConfig_init JSON_parse w st (VObj initial)).2
          = (initial ∪ config st) ∪ persisted) as Hcfg.
  { unfold BrowserConfig_init. rewrite Hw, Hs, Ht, Hp.
    cbn [truthy typeof_object andb Object_entries mbind option_bind snd
         with_config config].
    rewrite set_all_union by apply NoDup_fst_map_to_list.
    rewrite set_missing_union by apply NoDup_fst_map_to_list.
    by rewrite !list_to_map_to_list. }
  split; [done|].
  intros key. unfold BrowserConfig_get. rewrite Hcfg, !lookup_union.
  destruct (initial !! key), (config st !! key), (persisted !! key); done.
Qed.

(** [init({apiKey: "X"})] over the persisted store
    [{apiKey: "Y", channel: "C"}]: the explicit key wins, the persisted
    channel fills the gap. *)
Lemma init_explicit_over_persisted_witness :
  BrowserConfig_get
    (BrowserConfig_init parse_persisted (browser persisted_json) initial_state
       (VObj {[ "apiKey" := VStr "X" ]})).2 "apiKey" = VStr "X"
  ∧ BrowserConfig_get
      (BrowserConfig_init parse_persisted (browser persisted_json)
         initial_state (VObj {[ "apiKey" := VStr "X" ]})).2 "channel"
    = VStr "C".
Proof.
  destruct (init_explicit_over_persisted parse_persisted
              (browser persisted_json) initial_state
              {[ "apiKey" := VStr "X" ]}
              {[ "apiKey" := VStr "Y"; "channel" := VStr "C" ]}
              {[ "slack_integration_config" := persisted_json ]}
              persisted_json)
    as [_ Hget]; try reflexivity.
  split; rewrite Hget; reflexivity.
Defined.

(** * Further properties of the module *)

(** ** BrowserConfig.init on every storage *)

Lemma set_all_lookup_notin (m : gmap string value) es (k : string) :
  k ∉ es.*1 → set_all m es !! k = m !! k.
Proof.
  unfold set_all. revert m. induction es as [|[k' v'] es IH]; intros m Hk;
    [done|].
  cbn [foldl fst snd]. cbn in Hk. apply not_elem_of_cons in Hk as [Hne Hk].
  rewrite IH by done. by rewrite lookup_insert_ne.
Qed.

Lemma set_missing_lookup_Some (m : gmap string value) es (k : string) v :
  m !! k = Some v → set_missing m es !! k = Some v.
Proof.
  unfold set_missing. revert m. induction es as [|[k' v'] es IH]; intros m Hk;
    [done|].
  cbn [foldl fst snd]. apply IH.
  destruct (m !! k') eqn:Hk'; [done|].
  rewrite lookup_insert_ne; [done|]. intros ->. congruence.
Qed.

Lemma with_config_same st : with_config st (config st) = st.
Proof. by destruct st. Qed.

(** Every path through [init] ends with the merged mapping, extended by
    the persisted entries whose keys were missing. *)
Lemma init_config JSON_parse w st configObj :
  ∃ es, (BrowserConfig_init JSON_parse w st configObj).2
        = with_config st (set_missing (merged st configObj) es).
Proof.
  unfold BrowserConfig_init. fold (merged st configObj).
  destruct (localStorage w) as [storage|]; [|by exists []].
  destruct (storage !! "slack_integration_config") as [saved|]; [|by exists []].
  destruct (truthy (VStr saved)); [|by exists []].
  destruct (JSON_parse saved ≫= Object_entries) as [es|];
    [by exists es | by exists []].
Qed.

(** X1: a key given in the object passed to [init] reads back with the
    given value whatever the storage is: absent, empty, corrupt or holding
    another value for the key. *)
Theorem init_initial_always_wins JSON_parse w st initial key v :
  initial !! key = Some v →
  BrowserConfig_get (BrowserConfig_init JSON_parse w st (VObj initial)).2 key
  = v.
Proof.
  intros Hk. destruct (init_config JSON_parse w st (VObj initial)) as [es ->].
  unfold BrowserConfig_get. cbn [config with_config].
  rewrite (set_missing_lookup_Some _ _ _ v); [done|].
  unfold merged. cbn [truthy typeof_object andb Object_entries].
  rewrite set_all_union by apply NoDup_fst_map_to_list.
  rewrite list_to_map_to_list. by apply lookup_union_Some_l.
Qed.

Lemma init_initial_always_wins_witness :
  BrowserConfig_get
    (BrowserConfig_init parse_persisted (browser "{oops")
       (configured {[ "apiKey" := VStr "old" ]})
       (VObj {[ "apiKey" := VStr "X" ]})).2 "apiKey"
  = VStr "X".
Proof. apply init_initial_always_wins. reflexivity. Defined.

(** X2: [init] never deletes or overrides what the memory already holds
    under a key that the argument does not name: neither the merge nor the
    persisted configuration touches it. *)
Theorem init_keeps_memory JSON_parse w st configObj key v :
  config st !! key = Some v →
  key ∉ (default [] (Object_entries configObj)).*1 →
  config (BrowserConfig_init JSON_parse w st configObj).2 !! key = Some v.
Proof.
  intros Hk Hnot. destruct (init_config JSON_parse w st configObj) as [es ->].
  cbn [config with_config]. apply set_missing_lookup_Some.
  unfold merged. destruct (truthy configObj && typeof_object configObj);
    [|done].
  destruct (Object_entries configObj) as [es'|]; [|done].
  by rewrite set_all_lookup_notin.
Qed.

(** The memory holds a channel; [init] is given an API key and the storage
    holds another channel: the channel in memory stays. *)
Lemma init_keeps_memory_witness :
  config (BrowserConfig_init parse_persisted (browser persisted_json)
            (configured {[ "channel" := VStr "C-mem" ]})
            (VObj {[ "apiKey" := VStr "X" ]})).2 !! "channel"
  = Some (VStr "C-mem").
Proof.
  apply init_keeps_memory; [reflexivity|].
  vm_compute. intros H. apply list_elem_of_singleton in H. discriminate H.
Defined.



(** X4: with nothing persisted (no storage, no item, or an empty item)
    [init] logs nothing; an object argument is merged over the memory, and
    an argument that is not an object ([undefined], [null], a string, a
    number, a boolean) leaves the state as it was. *)
Theorem init_nothing_persisted JSON_parse w st configObj :
  (localStorage w = None
   ∨ ∃ storage, localStorage w = Some storage
       ∧ (storage !! "slack_integration_config" = None
          ∨ storage !! "slack_integration_config" = Some "")) →
  (BrowserConfig_init JSON_parse w st configObj).1 = []
  ∧ (∀ initial, configObj = VObj initial →
       config (BrowserConfig_init JSON_parse w st configObj).2
       = initial ∪ config st)
  ∧ (truthy configObj && typeof_object configObj = false →
       (BrowserConfig_init JSON_parse w st configObj).2 = st).
Proof.
  intros Hw.
  assert (BrowserConfig_init JSON_parse w st configObj
          = ([], with_config st (merged st configObj))) as ->.
  { unfold BrowserConfig_init. fold (merged st configObj).
    destruct Hw as [->|(storage & -> & [->| ->])]; done. }
  split_and!; [done| |].
  - intros initial ->. cbn [snd config with_config]. unfold merged.
    cbn [truthy typeof_object andb Object_entries].
    rewrite set_all_union by apply NoDup_fst_map_to_list.
    by rewrite list_to_map_to_list.
  - intros Hc. cbn [snd]. unfold merged. rewrite Hc. apply with_config_same.
Qed.

Lemma init_nothing_persisted_witness :
  (BrowserConfig_init parse_persisted (browser "")
     (configured {[ "channel" := VStr "C1" ]}) (VStr "apiKey=X")).1 = []
  ∧ (BrowserConfig_init parse_persisted (browser "")
       (configured {[ "channel" := VStr "C1" ]}) (VStr "apiKey=X")).2
    = configured {[ "channel" := VStr "C1" ]}.
Proof.
  destruct (init_nothing_persisted parse_persisted (browser "")
              (configured {[ "channel" := VStr "C1" ]}) (VStr "apiKey=X"))
    as (Hlog & _ & Hsame).
  - right. eexists. split; [reflexivity|]. right. reflexivity.
  - split; [exact Hlog | exact (Hsame eq_refl)].
Defined.

(** ** BrowserConfig.set *)

(** X5: [set] then [get] of the same key gives the value just written;
    every other key, and the integration manager, is left as it was. *)
Theorem set_then_get JSON_stringify w st key v :
  BrowserConfig_get (BrowserConfig_set JSON_stringify w st key v).2 key = v
  ∧ (∀ key', key' ≠ key →
       BrowserConfig_get (BrowserConfig_set JSON_stringify w st key v).2 key'
       = BrowserConfig_get st key')
  ∧ al_integmanager (BrowserConfig_set JSON_stringify w st key v).2
    = al_integmanager st.
Proof.
  unfold BrowserConfig_set, BrowserConfig_get.
  destruct (localStorage w); cbn [snd config with_config al_integmanager];
    (split_and!; [by rewrite lookup_insert_eq | | done]);
    intros key' Hne; by rewrite lookup_insert_ne.
Qed.

(** X6: what [set] persists is what a fresh module reads back.  When the
    serialized mapping parses back to itself, [init] in a module whose
    memory is empty recovers the whole mapping as [set] left it; an object
    given to that [init] still takes precedence. *)
Theorem set_survives_reload JSON_parse JSON_stringify w st key v storage :
  localStorage w = Some storage →
  truthy (VStr (JSON_stringify (VObj (<[key := v]> (config st))))) = true →
  JSON_parse (JSON_stringify (VObj (<[key := v]> (config st))))
    = Some (VObj (<[key := v]> (config st))) →
  config (BrowserConfig_init JSON_parse
            (BrowserConfig_set JSON_stringify w st key v).1
            initial_state VUndef).2
    = <[key := v]> (config st)
  ∧ ∀ initial,
      config (BrowserConfig_init JSON_parse
                (BrowserConfig_set JSON_stringify w st key v).1
                initial_state (VObj initial)).2
      = initial ∪ <[key := v]> (config st).
Proof.
  intros Hw Ht Hp. unfold BrowserConfig_set. rewrite Hw. cbn [fst].
  unfold BrowserConfig_init.
  cbn [localStorage config with_config initial_state].
  rewrite lookup_insert_eq, Ht, Hp.
  cbn [mbind option_bind Object_entries snd config with_config truthy
       typeof_object andb].
  split.
  - rewrite set_missing_union by apply NoDup_fst_map_to_list.
    by rewrite list_to_map_to_list, (left_id_L ∅ (∪)).
  - intros initial.
    rewrite set_all_union by apply NoDup_fst_map_to_list.
    rewrite set_missing_union by apply NoDup_fst_map_to_list.
    by rewrite !list_to_map_to_list, (right_id_L ∅ (∪)).
Qed.

(** [set("channel", "C")] over a memory holding the API key, then a
    reload with no argument. *)
Lemma set_survives_reload_witness :
  config (BrowserConfig_init parse_persisted
            (BrowserConfig_set stringify_persisted (browser "")
               (configured {[ "apiKey" := VStr "Y" ]})
               "channel" (VStr "C")).1
            initial_state VUndef).2
  = {[ "apiKey" := VStr "Y"; "channel" := VStr "C" ]}.
Proof.
  destruct (set_survives_reload parse_persisted stringify_persisted
              (browser "") (configured {[ "apiKey" := VStr "Y" ]})
              "channel" (VStr "C") {[ "slack_integration_config" := "" ]})
    as [H _]; [reflexivity..|].
  rewrite H. reflexivity.
Defined.

(** X7: without a storage [set] leaves the environment untouched; with one
    it rewrites the item ["slack_integration_config"] with the serialized
    whole mapping and leaves every other item and the HTTP client alone. *)
Theorem set_storage_footprint JSON_stringify w st key v :
  (localStorage w = None →
     (BrowserConfig_set JSON_stringify w st key v).1 = w)
  ∧ (∀ storage, localStorage w = Some storage →
       ∃ storage',
         localStorage (BrowserConfig_set JSON_stringify w st key v).1
           = Some storage'
         ∧ storage' !! "slack_integration_config"
           = Some (JSON_stringify (VObj (<[key := v]> (config st))))
         ∧ (∀ item, item ≠ "slack_integration_config" →
              storage' !! item = storage !! item)
         ∧ axiosPromise (BrowserConfig_set JSON_stringify w st key v).1
           = axiosPromise w).
Proof.
  unfold BrowserConfig_set. split.
  - by intros ->.
  - intros storage ->. eexists. cbn [fst localStorage axiosPromise].
    split_and!; [reflexivity | by rewrite lookup_insert_eq | | done].
    intros item Hne. by rewrite lookup_insert_ne.
Qed.

Lemma set_storage_footprint_witness :
  (BrowserConfig_set stringify_persisted (world_of (respond VNull))
     initial_state "channel" (VStr "C")).1
  = world_of (respond VNull).
Proof.
  apply (proj1 (set_storage_footprint stringify_persisted
                  (world_of (respond VNull)) initial_state
                  "channel" (VStr "C"))).
  reflexivity.
Defined.

(** ** loadIntegrationManager and initializeSlackConfig *)

Lemma loadIntegrationManager_result env st :
  (loadIntegrationManager env st).2
  = al_integmanager (loadIntegrationManager env st).1.2.
Proof.
  unfold loadIntegrationManager.
  destruct (al_integmanager st) eqn:Hm; [done|].
  destruct (agentlang_import env); [done|].
  by destruct (window_agentlang env).
Qed.

(** X8: the promise resolves to the manager the module now holds, and once
    a manager is held no later call replaces it, logs, or imports again:
    whatever the environment, the call returns the same manager and the
    same state. *)
Theorem loadIntegrationManager_once env env' st :
  (loadIntegrationManager env st).2
    = al_integmanager (loadIntegrationManager env st).1.2
  ∧ (is_Some (loadIntegrationManager env st).2 →
       loadIntegrationManager env' (loadIntegrationManager env st).1.2
       = ([], (loadIntegrationManager env st).1.2,
          (loadIntegrationManager env st).2)).
Proof.
  split; [apply loadIntegrationManager_result|].
  rewrite loadIntegrationManager_result. intros [im Him].
  unfold loadIntegrationManager at 1. by rewrite Him.
Qed.

Lemma loadIntegrationManager_once_witness :
  loadIntegrationManager offline
    (loadIntegrationManager
       {| agentlang_import :=
            Fulfilled {| integrations_export := Some (channel_manager "C-im");
                         module_manager :=
                           {| getIntegrationConfig := None |} |};
          window_agentlang := None |}
       initial_state).1.2
  = ([],
     with_manager initial_state (Some (channel_manager "C-im")),
     Some (channel_manager "C-im")).
Proof.
  refine (proj2 (loadIntegrationManager_once _ offline initial_state) _).
  eexists. reflexivity.
Defined.

(** X9: a failed load is not remembered.  When the import fails and the
    page offers no [agentlang], the state stays as it was and one warning is
    logged; a later call whose import succeeds installs
    [module.integrations], or the module itself when that export is
    missing. *)
Theorem loadIntegrationManager_retries env env' st reason module :
  al_integmanager st = None →
  agentlang_import env = Rejected reason →
  window_agentlang env = None →
  agentlang_import env' = Fulfilled module →
  loadIntegrationManager env st
    = ([ConsoleWarn [VStr
          "Failed to load agentlang from CDN, using fallback configuration"]],
       st, None)
  ∧ (loadIntegrationManager env' (loadIntegrationManager env st).1.2).2
    = Some (default (module_manager module) (integrations_export module))
  ∧ (loadIntegrationManager env' (loadIntegrationManager env st).1.2).1.1
    = [].
Proof.
  intros Hm Hi Hw Hi'.
  assert (loadIntegrationManager env st
          = ([ConsoleWarn [VStr
                "Failed to load agentlang from CDN, using fallback configuration"]],
             st, None)) as ->.
  { unfold loadIntegrationManager. by rewrite Hm, Hi, Hw. }
  split; [done|]. cbn [fst snd].
  unfold loadIntegrationManager. rewrite Hm, Hi'.
  by destruct (integrations_export module).
Qed.

Lemma loadIntegrationManager_retries_witness :
  (loadIntegrationManager
     {| agentlang_import :=
          Fulfilled {| integrations_export := None;
                       module_manager := channel_manager "C-im" |};
        window_agentlang := None |}
     (loadIntegrationManager offline initial_state).1.2).2
  = Some (channel_manager "C-im").
Proof.
  refine (proj1 (proj2 (loadIntegrationManager_retries offline
            {| agentlang_import :=
                 Fulfilled {| integrations_export := None;
                              module_manager := channel_manager "C-im" |};
               window_agentlang := None |}
            initial_state (VObj {[ "message" := VStr "Failed to fetch" ]})
            {| integrations_export := None;
               module_manager := channel_manager "C-im" |}
            eq_refl eq_refl eq_refl eq_refl))).
Defined.

(** X10: loading never touches the configuration mapping, and the only
    thing it can log is the one warning of a failed import. *)
Theorem loadIntegrationManager_keeps_config env st :
  config (loadIntegrationManager env st).1.2 = config st
  ∧ (∀ key, BrowserConfig_get (loadIntegrationManager env st).1.2 key
            = BrowserConfig_get st key)
  ∧ ((loadIntegrationManager env st).1.1 = []
     ∨ (loadIntegrationManager env st).1.1
       = [ConsoleWarn [VStr
            "Failed to load agentlang from CDN, using fallback configuration"]]).
Proof.
  assert (config (loadIntegrationManager env st).1.2 = config st) as Hc.
  { unfold loadIntegrationManager.
    destruct (al_integmanager st); [done|].
    destruct (agentlang_import env); [done|].
    by destruct (window_agentlang env). }
  split_and!; [done| |].
  - intros key. unfold BrowserConfig_get. by rewrite Hc.
  - unfold loadIntegrationManager.
    destruct (al_integmanager st); [by left|].
    destruct (agentlang_import env); [by left|].
    destruct (window_agentlang env); by right.
Qed.

Lemma init_keeps_manager JSON_parse w st configObj :
  al_integmanager (BrowserConfig_init JSON_parse w st configObj).2
  = al_integmanager st.
Proof.
  destruct (init_config JSON_parse w st configObj) as [es Hes].
  by rewrite Hes.
Qed.

Lemma initializeSlackConfig_eq JSON_parse w env st configObj :
  initializeSlackConfig JSON_parse w env st configObj
  = ((BrowserConfig_init JSON_parse w st configObj).1
       ++ (loadIntegrationManager env
             (BrowserConfig_init JSON_parse w st configObj).2).1.1,
     (loadIntegrationManager env
        (BrowserConfig_init JSON_parse w st configObj).2).1.2,
     (loadIntegrationManager env
        (BrowserConfig_init JSON_parse w st configObj).2).2).
Proof.
  unfold initializeSlackConfig.
  destruct (BrowserConfig_init JSON_parse w st configObj) as [t1 st1].
  cbn [fst snd]. by destruct (loadIntegrationManager env st1) as [[t2 st2] r].
Qed.

(** X11: when the import fails but the page carries
    [window.agentlang.integrations], that object becomes the manager (after
    the warning), and a truthy channel it answers is the channel the
    adapter resolves from then on. *)
Theorem loadIntegrationManager_window_fallback env st reason im f :
  al_integmanager st = None →
  agentlang_import env = Rejected reason →
  window_agentlang env = Some (Some im) →
  getIntegrationConfig im = Some f →
  truthy (f "slack" "channel") = true →
  (loadIntegrationManager env st).2 = Some im
  ∧ (loadIntegrationManager env st).1.1
    = [ConsoleWarn [VStr
         "Failed to load agentlang from CDN, using fallback configuration"]]
  ∧ getChannel (loadIntegrationManager env st).1.2 = f "slack" "channel".
Proof.
  intros Hm Hi Hw Hf Ht. unfold loadIntegrationManager.
  rewrite Hm, Hi, Hw. split_and!; [done..|].
  unfold getChannel, capability. cbn. by rewrite Hf, Ht.
Qed.

Lemma loadIntegrationManager_window_fallback_witness :
  getChannel
    (loadIntegrationManager
       {| agentlang_import := Rejected VUndef;
          window_agentlang := Some (Some (channel_manager "C-page")) |}
       (configured {[ "channel" := VStr "C-local" ]})).1.2
  = VStr "C-page".
Proof.
  refine (proj2 (proj2 (loadIntegrationManager_window_fallback
            {| agentlang_import := Rejected VUndef;
               window_agentlang := Some (Some (channel_manager "C-page")) |}
            (configured {[ "channel" := VStr "C-local" ]}) VUndef
            (channel_manager "C-page")
            (λ _ key, if decide (key = "channel") then VStr "C-page"
                      else VUndef)
            eq_refl eq_refl eq_refl eq_refl eq_refl))).
Defined.

(** X12: [initializeSlackConfig] with an object naming a channel, in an
    environment that yields no manager (import fails, nothing on the page):
    the promise resolves to [undefined] and the adapter resolves the channel
    just given, whatever the storage holds. *)
Theorem initializeSlackConfig_local_channel JSON_parse w env st initial
    reason c :
  al_integmanager st = None →
  agentlang_import env = Rejected reason →
  window_agentlang env = None →
  initial !! "channel" = Some c →
  (initializeSlackConfig JSON_parse w env st (VObj initial)).2 = None
  ∧ getChannel (initializeSlackConfig JSON_parse w env st (VObj initial)).1.2
    = c.
Proof.
  intros Hm Hi Hw Hc. rewrite initializeSlackConfig_eq. cbn [fst snd].
  pose proof (init_keeps_manager JSON_parse w st (VObj initial)) as Hk.
  rewrite Hm in Hk.
  pose proof (init_config JSON_parse w st (VObj initial)) as [es Hes].
  unfold loadIntegrationManager. rewrite Hk, Hi, Hw. cbn [fst snd].
  split; [done|].
  unfold getChannel, capability. rewrite Hk. cbn [mbind option_bind].
  unfold BrowserConfig_get. rewrite Hes. cbn [config with_config].
  rewrite (set_missing_lookup_Some _ _ _ c); [done|].
  unfold merged. cbn [truthy typeof_object andb Object_entries].
  rewrite set_all_union by apply NoDup_fst_map_to_list.
  rewrite list_to_map_to_list. by apply lookup_union_Some_l.
Qed.

Lemma initializeSlackConfig_local_channel_witness :
  getChannel
    (initializeSlackConfig parse_persisted (browser persisted_json) offline
       initial_state (VObj {[ "channel" := VStr "C-given" ]})).1.2
  = VStr "C-given".
Proof.
  refine (proj2 (initializeSlackConfig_local_channel parse_persisted
            (browser persisted_json) offline initial_state
            {[ "channel" := VStr "C-given" ]}
            (VObj {[ "message" := VStr "Failed to fetch" ]})
            (VStr "C-given") eq_refl eq_refl eq_refl eq_refl)).
Defined.

(** X13: a channel given to [initializeSlackConfig] does not bind the
    adapter when the import succeeds with a manager that answers a truthy
    channel: the manager's channel is the one resolved, and the one [send]
    posts to. *)
Theorem initializeSlackConfig_manager_shadows JSON_parse w env st configObj
    module f :
  al_integmanager st = None →
  agentlang_import env = Fulfilled module →
  getIntegrationConfig
    (default (module_manager module) (integrations_export module)) = Some f →
  truthy (f "slack" "channel") = true →
  getChannel (initializeSlackConfig JSON_parse w env st configObj).1.2
  = f "slack" "channel".
Proof.
  intros Hm Hi Hf Ht. rewrite initializeSlackConfig_eq. cbn [fst snd].
  pose proof (init_keeps_manager JSON_parse w st configObj) as Hk.
  rewrite Hm in Hk.
  unfold loadIntegrationManager. rewrite Hk, Hi. cbn [fst snd].
  unfold getChannel, capability. cbn [al_integmanager with_manager mbind
                                       option_bind].
  replace (match integrations_export module with
           | Some i => i
           | None => module_manager module
           end)
    with (default (module_manager module) (integrations_export module))
    by (by destruct (integrations_export module)).
  by rewrite Hf, Ht.
Qed.

Lemma initializeSlackConfig_manager_shadows_witness :
  getChannel
    (initializeSlackConfig parse_persisted (browser "")
       {| agentlang_import :=
            Fulfilled {| integrations_export := Some (channel_manager "C-im");
                         module_manager :=
                           {| getIntegrationConfig := None |} |};
          window_agentlang := None |}
       initial_state (VObj {[ "channel" := VStr "C-given" ]})).1.2
  = VStr "C-im".
Proof.
  refine (initializeSlackConfig_manager_shadows parse_persisted (browser "")
            {| agentlang_import :=
                 Fulfilled {| integrations_export :=
                                Some (channel_manager "C-im");
                              module_manager :=
                                {| getIntegrationConfig := None |} |};
               window_agentlang := None |}
            initial_state (VObj {[ "channel" := VStr "C-given" ]})
            {| integrations_export := Some (channel_manager "C-im");
               module_manager := {| getIntegrationConfig := None |} |}
            (λ _ key, if decide (key = "channel") then VStr "C-im"
                      else VUndef)
            eq_refl eq_refl eq_refl eq_refl).
Defined.

(** ** send and receive on every path *)

(** The trace and the completion of [send] once the channel resolved, in
    terms of what [handleAxiosRequest] did. *)
Lemma send_after_request w st channel message env log hs :
  truthy (getChannel st) = true →
  StandardHeaders st = (log, Return hs) →
  send w st channel message env =
    let h := handleAxiosRequest w (getUrl "chat.postMessage")
               {| method := "POST"; headers := hs;
                  req_data := Some (VObj {[ "channel" := getChannel st;
                                            "text" := message ]}) |} in
    match h.2 with
    | ThrowTypeError => (log ++ h.1, ThrowTypeError)
    | Return result =>
        match get_prop result "error" with
        | None => (log ++ h.1, ThrowTypeError)
        | Some err =>
            if truthy err then
              (log ++ h.1
                 ++ [ConsoleError [VStr "Failed to send Slack message:"; err]],
               Return result)
            else
              match get_prop result "ts" with
              | Some ts => (log ++ h.1, Return ts)
              | None => (log ++ h.1, ThrowTypeError)
              end
        end
    end.
Proof.
  intros Hc Hs. unfold send. rewrite Hc, Hs. cbn [negb].
  cbn [mbind M_bind].
  destruct (handleAxiosRequest w _ _) as [t [result|]];
    cbn [fst snd mbind M_bind]; [|done].
  destruct (get_prop result "error") as [err|];
    cbn [read mret M_ret mbind M_bind]; [|by rewrite app_nil_r].
  destruct (truthy err); cbn [emit read mret M_ret mbind M_bind app].
  - done.
  - destruct (get_prop result "ts"); cbn [read mret M_ret];
      by rewrite ?app_nil_r.
Qed.

(** The same for [waitForReply]: nothing is logged or requested after the
    one call of [handleAxiosRequest]. *)
Lemma waitForReply_after_request w st thread log hs :
  truthy (getChannel st) = true →
  StandardHeaders st = (log, Return hs) →
  let h := handleAxiosRequest w
             (getUrl ("conversations.replies?ts=" +:+ to_string thread
                      +:+ "&channel=" +:+ to_string (getChannel st)))
             {| method := "GET"; headers := hs; req_data := None |} in
  (waitForReply w st thread).1 = SetTimeout 10000 :: log ++ h.1
  ∧ (waitForReply w st thread).2 =
      match h.2 with
      | ThrowTypeError => ThrowTypeError
      | Return resp =>
          (err ← read (get_prop resp "error");
           if truthy err then mret resp
           else
             msgs ← read (get_prop resp "messages");
             if truthy msgs then
               len ← read (get_prop msgs "length");
               if js_ge len 2 then
                 entry ← read (get_index msgs (default 0 (to_number len) - 1));
                 read (get_prop entry "text")
               else mret (VStr "no response")
             else mret (VStr "no response")).2
      end.
Proof.
  intros Hc Hs h. unfold waitForReply. rewrite Hc, Hs. cbn [negb]. split.
  - rewrite bind_trace. cbn [emit fst snd app]. f_equal.
    rewrite bind_trace. cbn [fst snd]. f_equal.
    rewrite bind_trace. fold h.
    destruct (h.2) as [resp|]; [|by rewrite app_nil_r].
    rewrite bind_trace, read_trace.
    destruct (get_prop resp "error") as [err|]; cbn [read snd mret M_ret app];
      [|by rewrite app_nil_r].
    destruct (truthy err); [by rewrite app_nil_r|].
    rewrite bind_trace, read_trace.
    destruct (get_prop resp "messages") as [msgs|];
      cbn [read snd mret M_ret app]; [|by rewrite app_nil_r].
    destruct (truthy msgs); [|by rewrite app_nil_r].
    rewrite bind_trace, read_trace.
    destruct (get_prop msgs "length") as [len|];
      cbn [read snd mret M_ret app]; [|by rewrite app_nil_r].
    destruct (js_ge len 2); [|by rewrite app_nil_r].
    rewrite bind_trace, read_trace.
    destruct (get_index msgs _) as [entry|]; cbn [read snd mret M_ret app];
      by rewrite ?read_trace, app_nil_r.
  - rewrite bind_result. cbn [emit snd]. rewrite bind_result. cbn [snd].
    rewrite bind_result. fold h. done.
Qed.

Lemma StandardHeaders_log st log hs :
  StandardHeaders st = (log, Return hs) →
  log = [] ∨ log = [ConsoleError [VStr "Slack API key not configured"]].
Proof.
  rewrite StandardHeaders_cases.
  destruct (truthy (getApiKey st)); intros [= <- _]; eauto.
Qed.

(** X14: on every path [send] issues at most one HTTP request, and every
    event it performs is a console error or that request: it never sets a
    timer and never warns. *)
Theorem send_trace_bounds w st channel message env :
  (length (filter (λ e, is_network e) (send w st channel message env).1) ≤ 1)%nat
  ∧ Forall (λ e, match e with
                 | ConsoleError _ | AxiosCall _ _ => True
                 | ConsoleWarn _ | SetTimeout _ => False
                 end) (send w st channel message env).1.
Proof.
  destruct (truthy (getChannel st)) eqn:Hc.
  2:{ unfold send. rewrite Hc. cbn. split; [lia | constructor]. }
  destruct (StandardHeaders_returns st) as (log & hs & Hs).
  rewrite (send_after_request _ _ _ _ _ _ _ Hc Hs). cbn zeta.
  pose proof (handleAxiosRequest_trace w (getUrl "chat.postMessage")
    {| method := "POST"; headers := hs;
       req_data := Some (VObj {[ "channel" := getChannel st;
                                 "text" := message ]}) |}) as Ht.
  destruct (handleAxiosRequest w _ _) as [t r]. cbn [fst snd] in *. subst t.
  destruct (StandardHeaders_log _ _ _ Hs) as [-> | ->];
    destruct (axiosPromise w), r as [result|]; cbn [fst snd];
    try (destruct (get_prop result "error") as [err|]; cbn [fst snd];
         [destruct (truthy err); cbn [fst snd];
          [|destruct (get_prop result "ts"); cbn [fst snd]]|]);
    (split; [vm_compute; lia | repeat constructor]).
Qed.

(** X15: once the channel resolved, [receive] does exactly this, whatever
    the answer: it sets the 10-second timer, then builds the headers
    (logging a missing API key), then calls the HTTP client once if it is
    loaded, with a GET on the replies endpoint naming the thread and the
    resolved channel and with no body.  Nothing is logged for a failure. *)
Theorem receive_trace_shape w st threadId env :
  truthy (getChannel st) = true →
  ∃ log hs,
    StandardHeaders st = (log, Return hs)
    ∧ (receive w st threadId env).1
      = SetTimeout 10000 :: log
          ++ match axiosPromise w with
             | Fulfilled _ =>
                 [AxiosCall
                    (getUrl ("conversations.replies?ts="
                             +:+ to_string threadId +:+ "&channel="
                             +:+ to_string (getChannel st)))
                    {| method := "GET"; headers := hs; req_data := None |}]
             | Rejected _ => []
             end.
Proof.
  intros Hc. destruct (StandardHeaders_returns st) as (log & hs & Hs).
  exists log, hs. split; [done|].
  rewrite receive_waitForReply.
  destruct (waitForReply_after_request w st threadId log hs Hc Hs) as [-> _].
  by rewrite handleAxiosRequest_trace.
Qed.

(** A thread polled while the HTTP client could not be loaded: the timer
    still runs, the missing key is logged, and no request leaves. *)
Lemma receive_trace_shape_witness :
  (receive {| axiosPromise := Rejected (setup_error (VStr "import failed"));
              localStorage := None |}
           (configured {[ "channel" := VStr "C1" ]}) (VStr "T1") VUndef).1
  = [SetTimeout 10000; ConsoleError [VStr "Slack API key not configured"]].
Proof.
  destruct (receive_trace_shape
              {| axiosPromise := Rejected (setup_error (VStr "import failed"));
                 localStorage := None |}
              (configured {[ "channel" := VStr "C1" ]}) (VStr "T1") VUndef)
    as (log & hs & Hs & Htr); [reflexivity|].
  rewrite Htr. vm_compute in Hs. injection Hs as <- _. reflexivity.
Defined.

(** ** Failures, end to end *)

Lemma get_prop_defined v k k' x :
  get_prop v k = Some x → ∃ y, get_prop v k' = Some y.
Proof. destruct v; try discriminate; cbn; eauto. Qed.

Lemma truthy_get_prop v k : truthy v = true → ∃ y, get_prop v k = Some y.
Proof. destruct v; try discriminate; cbn; eauto. Qed.

Lemma normalize_error_http error response :
  get_prop error "response" = Some response →
  truthy response = true →
  ∃ code text,
    get_prop response "status" = Some code
    ∧ get_prop response "statusText" = Some text
    ∧ normalize_error error
      = ([], Return (error_descriptor
               (VStr ("HTTP error! status: " +:+ to_string code +:+ " "
                      +:+ to_string text)))).
Proof.
  intros Hr Ht.
  destruct (truthy_get_prop response "status" Ht) as [code Hc].
  destruct (truthy_get_prop response "statusText" Ht) as [text Hx].
  exists code, text. do 2 (split; [done|]).
  unfold normalize_error.
  by rewrite Hr, read_bind, Ht, Hc, read_bind, Hx, read_bind.
Qed.

Lemma normalize_error_no_response error response request :
  get_prop error "response" = Some response →
  truthy response = false →
  get_prop error "request" = Some request →
  truthy request = true →
  normalize_error error
  = ([], Return (error_descriptor (VStr "No response received from server"))).
Proof.
  intros Hr Ht Hq Hqt. unfold normalize_error.
  by rewrite Hr, read_bind, Ht, Hq, read_bind, Hqt.
Qed.

Lemma normalize_error_setup error response request msg :
  get_prop error "response" = Some response →
  truthy response = false →
  get_prop error "request" = Some request →
  truthy request = false →
  get_prop error "message" = Some msg →
  normalize_error error = ([], Return (error_descriptor msg)).
Proof.
  intros Hr Ht Hq Hqt Hm. unfold normalize_error.
  by rewrite Hr, read_bind, Ht, Hq, read_bind, Hqt, Hm, read_bind.
Qed.

Lemma descriptor_error msg :
  get_prop (error_descriptor msg) "error" = Some msg.
Proof. cbn. by rewrite lookup_singleton_eq. Qed.

Lemma descriptor_other msg k :
  k ≠ "error" → get_prop (error_descriptor msg) k = Some VUndef.
Proof. intros Hk. cbn. by rewrite lookup_singleton_ne. Qed.

(** [send] when the request failed and was normalized to [d]. *)
Lemma send_failed w st channel message env error d :
  truthy (getChannel st) = true →
  post_fails w st message error →
  normalize_error error = ([], Return (error_descriptor d)) →
  (truthy d = true →
     (send w st channel message env).2 = Return (error_descriptor d)
     ∧ last (send w st channel message env).1
       = Some (ConsoleError [VStr "Failed to send Slack message:"; d]))
  ∧ (truthy d = false →
     (send w st channel message env).2 = Return VUndef
     ∧ ∀ e, ConsoleError [VStr "Failed to send Slack message:"; e]
            ∉ (send w st channel message env).1).
Proof.
  intros Hc Hp Hn.
  destruct (StandardHeaders_returns st) as (log & hs & Hs).
  rewrite (send_after_request _ _ _ _ _ _ _ Hc Hs). cbn zeta.
  pose proof (handleAxiosRequest_failed _ _ _ _ (Hp _ _ Hs)) as H2.
  pose proof (handleAxiosRequest_trace w (getUrl "chat.postMessage")
    {| method := "POST"; headers := hs;
       req_data := Some (VObj {[ "channel" := getChannel st;
                                 "text" := message ]}) |}) as H1.
  destruct (handleAxiosRequest w _ _) as [t r]. cbn [fst snd] in *.
  rewrite Hn in H2. cbn [snd] in H2. subst r.
  rewrite descriptor_error.
  split; intros Hd; rewrite Hd.
  - split; [done|]. cbn [fst]. by rewrite app_assoc, last_snoc.
  - rewrite descriptor_other by done. split; [done|].
    intros e. cbn [fst]. subst t.
    destruct (StandardHeaders_log _ _ _ Hs) as [-> | ->];
      destruct (axiosPromise w); cbn;
      rewrite ?elem_of_cons, ?elem_of_nil; intros H;
      repeat (destruct H as [H|H]); done.
Qed.

(** [receive] when the request failed and was normalized to [d]. *)
Lemma receive_failed w st threadId env error d :
  truthy (getChannel st) = true →
  get_fails w st threadId error →
  normalize_error error = ([], Return (error_descriptor d)) →
  (receive w st threadId env).2
  = if truthy d then Return (error_descriptor d)
    else Return (VStr "no response").
Proof.
  intros Hc Hg Hn. rewrite receive_waitForReply.
  destruct (StandardHeaders_returns st) as (log & hs & Hs).
  destruct (waitForReply_after_request w st threadId log hs Hc Hs) as [_ ->].
  rewrite (handleAxiosRequest_failed _ _ _ _ (Hg _ _ Hs)), Hn. cbn [snd].
  rewrite descriptor_error, read_bind.
  destruct (truthy d); [done|].
  by rewrite descriptor_other, read_bind by done.
Qed.

(** X16: when the POST fails, [send] returns the normalized descriptor and
    its last event is the console error carrying the same message: with a
    server response the message names the status and its text, with a
    request but no response it is the fixed no-response message. *)
Theorem send_failure_logged_and_returned w st channel message env error
    response :
  truthy (getChannel st) = true →
  post_fails w st message error →
  get_prop error "response" = Some response →
  (truthy response = true →
     ∃ code text,
       get_prop response "status" = Some code
       ∧ get_prop response "statusText" = Some text
       ∧ (send w st channel message env).2
         = Return (VObj {[ "error" :=
               VStr ("HTTP error! status: " +:+ to_string code +:+ " "
                     +:+ to_string text) ]})
       ∧ last (send w st channel message env).1
         = Some (ConsoleError
                   [VStr "Failed to send Slack message:";
                    VStr ("HTTP error! status: " +:+ to_string code +:+ " "
                          +:+ to_string text)]))
  ∧ (truthy response = false →
     ∀ request, get_prop error "request" = Some request →
       truthy request = true →
       (send w st channel message env).2
         = Return (VObj {[ "error" :=
                             VStr "No response received from server" ]})
       ∧ last (send w st channel message env).1
         = Some (ConsoleError [VStr "Failed to send Slack message:";
                               VStr "No response received from server"])).
Proof.
  intros Hc Hp Hr. split.
  - intros Ht.
    destruct (normalize_error_http _ _ Hr Ht) as (code & text & H1 & H2 & Hn).
    exists code, text. do 2 (split; [done|]).
    by apply (send_failed _ _ _ _ _ _ _ Hc Hp Hn).
  - intros Ht request Hq Hqt.
    by apply (send_failed _ _ _ _ _ _ _ Hc Hp
                (normalize_error_no_response _ _ _ Hr Ht Hq Hqt)).
Qed.

(** The request left, no answer came back. *)
Lemma send_failure_logged_and_returned_witness :
  (send (world_of (fail_with (VObj {[ "request" := VObj ∅ ]})))
        (configured {[ "channel" := VStr "C1" ]})
        (VStr "C1") (VStr "hello") VUndef).2
    = Return (VObj {[ "error" := VStr "No response received from server" ]})
  ∧ last (send (world_of (fail_with (VObj {[ "request" := VObj ∅ ]})))
               (configured {[ "channel" := VStr "C1" ]})
               (VStr "C1") (VStr "hello") VUndef).1
    = Some (ConsoleError [VStr "Failed to send Slack message:";
                          VStr "No response received from server"]).
Proof.
  destruct (send_failure_logged_and_returned
              (world_of (fail_with (VObj {[ "request" := VObj ∅ ]})))
              (configured {[ "channel" := VStr "C1" ]})
              (VStr "C1") (VStr "hello") VUndef
              (VObj {[ "request" := VObj ∅ ]}) VUndef)
    as [_ H].
  - reflexivity.
  - intros log hs _. right. eexists. split; reflexivity.
  - reflexivity.
  - exact (H eq_refl (VObj ∅) eq_refl eq_refl).
Defined.

(** X17: when the GET fails, [receive] returns the normalized descriptor
    as it is: the status message for a server response, the no-response
    message for a request without answer. *)
Theorem receive_failure_returned w st threadId env error response :
  truthy (getChannel st) = true →
  get_fails w st threadId error →
  get_prop error "response" = Some response →
  (truthy response = true →
     ∃ code text,
       get_prop response "status" = Some code
       ∧ get_prop response "statusText" = Some text
       ∧ (receive w st threadId env).2
         = Return (VObj {[ "error" :=
               VStr ("HTTP error! status: " +:+ to_string code +:+ " "
                     +:+ to_string text) ]}))
  ∧ (truthy response = false →
     ∀ request, get_prop error "request" = Some request →
       truthy request = true →
       (receive w st threadId env).2
         = Return (VObj {[ "error" :=
                             VStr "No response received from server" ]})).
Proof.
  intros Hc Hg Hr. split.
  - intros Ht.
    destruct (normalize_error_http _ _ Hr Ht) as (code & text & H1 & H2 & Hn).
    exists code, text. do 2 (split; [done|]).
    by rewrite (receive_failed _ _ _ _ _ _ Hc Hg Hn).
  - intros Ht request Hq Hqt.
    by rewrite (receive_failed _ _ _ _ _ _ Hc Hg
                  (normalize_error_no_response _ _ _ Hr Ht Hq Hqt)).
Qed.

Lemma receive_failure_returned_witness :
  (receive (world_of (fail_with (http_error 404 "Not Found")))
           (configured {[ "channel" := VStr "C1" ]}) (VStr "T1") VUndef).2
  = Return (VObj {[ "error" := VStr "HTTP error! status: 404 Not Found" ]}).
Proof.
  destruct (receive_failure_returned
              (world_of (fail_with (http_error 404 "Not Found")))
              (configured {[ "channel" := VStr "C1" ]}) (VStr "T1") VUndef
              (http_error 404 "Not Found")
              (VObj {[ "status" := VNum 404;
                       "statusText" := VStr "Not Found" ]}))
    as [H _].
  - reflexivity.
  - intros log hs _. right. eexists. split; reflexivity.
  - reflexivity.
  - destruct (H eq_refl) as (code & text & Hcode & Htext & Hres).
    rewrite Hres. vm_compute in Hcode, Htext.
    injection Hcode as <-. injection Htext as <-. reflexivity.
Defined.

(** X18: a failure that carries neither a response nor a request and
    whose [message] is empty or missing is lost: the descriptor's [error]
    is falsy, so [send] returns [undefined] without logging the failure,
    and [receive] answers ["no response"]. *)
Theorem setup_failure_without_message w st channel message threadId env
    error response request msg :
  truthy (getChannel st) = true →
  get_prop error "response" = Some response → truthy response = false →
  get_prop error "request" = Some request → truthy request = false →
  get_prop error "message" = Some msg → truthy msg = false →
  (post_fails w st message error →
     (send w st channel message env).2 = Return VUndef
     ∧ ∀ e, ConsoleError [VStr "Failed to send Slack message:"; e]
            ∉ (send w st channel message env).1)
  ∧ (get_fails w st threadId error →
     (receive w st threadId env).2 = Return (VStr "no response")).
Proof.
  intros Hc Hr Hrt Hq Hqt Hm Hmt.
  pose proof (normalize_error_setup _ _ _ _ Hr Hrt Hq Hqt Hm) as Hn.
  split.
  - intros Hp. by apply (send_failed _ _ _ _ _ _ _ Hc Hp Hn).
  - intros Hg. by rewrite (receive_failed _ _ _ _ _ _ Hc Hg Hn), Hmt.
Qed.

(** The HTTP client failed to load with an error that has no message. *)
Lemma setup_failure_without_message_witness :
  (send {| axiosPromise := Rejected (VObj ∅); localStorage := None |}
        (configured {[ "channel" := VStr "C1" ]})
        (VStr "C1") (VStr "hello") VUndef).2 = Return VUndef
  ∧ (receive {| axiosPromise := Rejected (VObj ∅); localStorage := None |}
             (configured {[ "channel" := VStr "C1" ]}) (VStr "T1") VUndef).2
    = Return (VStr "no response").
Proof.
  destruct (setup_failure_without_message
              {| axiosPromise := Rejected (VObj ∅); localStorage := None |}
              (configured {[ "channel" := VStr "C1" ]})
              (VStr "C1") (VStr "hello") (VStr "T1") VUndef
              (VObj ∅) VUndef VUndef VUndef)
    as [Hs Hg]; [reflexivity..|].
  split.
  - apply Hs. intros log hs _. left. reflexivity.
  - apply Hg. intros log hs _. left. reflexivity.
Defined.

(** X19: a request that succeeds with the body [null] (or [undefined])
    makes both operations throw: reading [.error] of the body raises a
    [TypeError], so the returned promise is rejected instead of resolving
    to a value or an error descriptor. *)
Theorem null_body_throws w st channel message threadId env resp :
  truthy (getChannel st) = true →
  data resp = VNull ∨ data resp = VUndef →
  (post_succeeds w st message resp →
     (send w st channel message env).2 = ThrowTypeError)
  ∧ (get_succeeds w st threadId resp →
     (receive w st threadId env).2 = ThrowTypeError).
Proof.
  intros Hc Hd. split.
  - intros Hp. rewrite (send_fulfilled _ _ _ _ _ _ Hc Hp).
    by destruct Hd as [-> | ->].
  - intros Hg. rewrite receive_waitForReply.
    destruct (waitForReply_fulfilled _ _ _ _ Hc Hg) as (rest & _ & ->).
    by destruct Hd as [-> | ->].
Qed.

Lemma null_body_throws_witness :
  (send (world_of (respond VNull)) (configured {[ "channel" := VStr "C1" ]})
        (VStr "C1") (VStr "hello") VUndef).2 = ThrowTypeError
  ∧ (receive (world_of (respond VNull))
             (configured {[ "channel" := VStr "C1" ]}) (VStr "T1") VUndef).2
    = ThrowTypeError.
Proof.
  destruct (null_body_throws (world_of (respond VNull))
              (configured {[ "channel" := VStr "C1" ]})
              (VStr "C1") (VStr "hello") (VStr "T1") VUndef
              {| status := 200; statusText := "OK"; data := VNull |})
    as [Hs Hg]; [reflexivity | by left |].
  split.
  - apply Hs. eexists. split; [reflexivity|]. intros log hs _. reflexivity.
  - apply Hg. eexists. split; [reflexivity|]. intros log hs _. reflexivity.
Defined.

(** X20: a GET that succeeds with a body whose [error] field is truthy
    (Slack's own refusals arrive so) makes [receive] return the whole body,
    whatever messages it may carry. *)
Theorem receive_error_body_verbatim w st threadId env resp err :
  truthy (getChannel st) = true →
  get_succeeds w st threadId resp →
  get_prop (data resp) "error" = Some err →
  truthy err = true →
  (receive w st threadId env).2 = Return (data resp).
Proof.
  intros Hc Hg He Ht. rewrite receive_waitForReply.
  destruct (waitForReply_fulfilled _ _ _ _ Hc Hg) as (rest & _ & ->).
  by rewrite He, read_bind, Ht.
Qed.

Lemma receive_error_body_verbatim_witness :
  (receive (world_of (respond slack_refusal))
           (configured {[ "channel" := VStr "C1" ]}) (VStr "T1") VUndef).2
  = Return slack_refusal.
Proof.
  apply (receive_error_body_verbatim (world_of (respond slack_refusal))
           (configured {[ "channel" := VStr "C1" ]}) (VStr "T1") VUndef
           {| status := 200; statusText := "OK"; data := slack_refusal |}
           (VStr "channel_not_found")).
  - reflexivity.
  - eexists. split; [reflexivity|]. intros log hs _. reflexivity.
  - reflexivity.
  - reflexivity.
Defined.

(** X21: a GET that succeeds with a body that has a falsy [error] and a
    falsy [messages] (absent, [null], empty string) gives ["no response"]:
    a missing list is treated as a thread without reply. *)
Theorem receive_without_messages w st threadId env resp err msgs :
  truthy (getChannel st) = true →
  get_succeeds w st threadId resp →
  get_prop (data resp) "error" = Some err →
  truthy err = false →
  get_prop (data resp) "messages" = Some msgs →
  truthy msgs = false →
  (receive w st threadId env).2 = Return (VStr "no response").
Proof.
  intros Hc Hg He Ht Hm Hmt. rewrite receive_waitForReply.
  destruct (waitForReply_fulfilled _ _ _ _ Hc Hg) as (rest & _ & ->).
  by rewrite He, read_bind, Ht, Hm, read_bind, Hmt.
Qed.

Lemma receive_without_messages_witness :
  (receive (world_of (respond (VObj {[ "ok" := VBool true ]})))
           (configured {[ "channel" := VStr "C1" ]}) (VStr "T1") VUndef).2
  = Return (VStr "no response").
Proof.
  apply (receive_without_messages
           (world_of (respond (VObj {[ "ok" := VBool true ]})))
           (configured {[ "channel" := VStr "C1" ]}) (VStr "T1") VUndef
           {| status := 200; statusText := "OK";
              data := VObj {[ "ok" := VBool true ]} |}
           VUndef VUndef).
  - reflexivity.
  - eexists. split; [reflexivity|]. intros log hs _. reflexivity.
  - reflexivity.
  - reflexivity.
  - reflexivity.
  - reflexivity.
Defined.

(** X22: for a failed request [handleAxiosRequest] throws exactly when
    the thrown error is [null] or [undefined] (the [catch] block then fails
    reading [error.response]); for every other error it returns an object
    with an [error] property. *)
Theorem handleAxiosRequest_throws_iff w url cfg error :
  request_fails w url cfg error →
  ((handleAxiosRequest w url cfg).2 = ThrowTypeError
   ↔ error = VNull ∨ error = VUndef)
  ∧ (error ≠ VNull → error ≠ VUndef →
     ∃ msg, (handleAxiosRequest w url cfg).2
            = Return (VObj {[ "error" := msg ]})).
Proof.
  intros Hf. rewrite (handleAxiosRequest_failed _ _ _ _ Hf).
  assert (error ≠ VNull → error ≠ VUndef →
          ∃ msg, (normalize_error error).2 = Return (VObj {[ "error" := msg ]}))
    as Hret.
  { intros Hn Hu.
    assert (∃ r, get_prop error "response" = Some r) as [r Hr]
      by (destruct error; cbn; eauto; done).
    destruct (truthy r) eqn:Ht.
    - destruct (normalize_error_http _ _ Hr Ht) as (c & t & _ & _ & ->).
      eauto.
    - destruct (get_prop_defined _ _ "request" _ Hr) as [q Hq].
      destruct (get_prop_defined _ _ "message" _ Hr) as [m Hm].
      destruct (truthy q) eqn:Hqt.
      + rewrite (normalize_error_no_response _ _ _ Hr Ht Hq Hqt). eauto.
      + rewrite (normalize_error_setup _ _ _ _ Hr Ht Hq Hqt Hm). eauto. }
  split; [|done]. split.
  - intros Hthrow.
    destruct error; [by right | by left | ..];
      (destruct Hret as [msg Hmsg]; [done..|congruence]).
  - by intros [-> | ->].
Qed.

Lemma handleAxiosRequest_throws_iff_witness :
  (handleAxiosRequest (world_of (fail_with VNull))
     "https://slack.com/api/chat.postMessage"
     {| method := "POST"; headers := ∅; req_data := None |}).2
  = ThrowTypeError.
Proof.
  apply (proj1 (handleAxiosRequest_throws_iff (world_of (fail_with VNull))
                  "https://slack.com/api/chat.postMessage"
                  {| method := "POST"; headers := ∅; req_data := None |}
                  VNull
                  (or_intror (ex_intro _ (fail_with VNull)
                                (conj eq_refl eq_refl))))).
  by left.
Defined.

(** ** More on the successful paths *)

(** X23: a POST that succeeds with a body whose [error] field is truthy
    is treated as a failure: [send] logs that error and returns the whole
    body, and its trace is the header log, the request and that console
    error, in this order. *)
Theorem send_error_body_logged w st channel message env resp err :
  truthy (getChannel st) = true →
  post_succeeds w st message resp →
  get_prop (data resp) "error" = Some err →
  truthy err = true →
  ∃ log hs,
    StandardHeaders st = (log, Return hs)
    ∧ send w st channel message env
      = (log
           ++ [AxiosCall (getUrl "chat.postMessage")
                 {| method := "POST"; headers := hs;
                    req_data := Some (VObj {[ "channel" := getChannel st;
                                              "text" := message ]}) |}]
           ++ [ConsoleError [VStr "Failed to send Slack message:"; err]],
         Return (data resp)).
Proof.
  intros Hc (axios & Ha & Hr) He Ht.
  destruct (StandardHeaders_returns st) as (log & hs & Hs).
  exists log, hs. split; [done|].
  rewrite (send_after_request _ _ _ _ _ _ _ Hc Hs). cbn zeta.
  rewrite (handleAxiosRequest_fulfilled _ _ _ _ _ Ha (Hr _ _ Hs)).
  cbn [fst snd]. by rewrite He, Ht.
Qed.

Lemma send_error_body_logged_witness :
  send (world_of (respond slack_refusal))
       (configured {[ "channel" := VStr "C1"; "apiKey" := VStr "k" ]})
       (VStr "C1") (VStr "hello") VUndef
  = ([ AxiosCall "https://slack.com/api/chat.postMessage"
         {| method := "POST";
            headers := {[ "Authorization" := VStr "Bearer k";
                          "Content-Type" := VStr "application/json" ]};
            req_data := Some (VObj {[ "channel" := VStr "C1";
                                      "text" := VStr "hello" ]}) |};
       ConsoleError [VStr "Failed to send Slack message:";
                     VStr "channel_not_found"] ],
     Return slack_refusal).
Proof.
  destruct (send_error_body_logged (world_of (respond slack_refusal))
              (configured {[ "channel" := VStr "C1"; "apiKey" := VStr "k" ]})
              (VStr "C1") (VStr "hello") VUndef
              {| status := 200; statusText := "OK"; data := slack_refusal |}
              (VStr "channel_not_found"))
    as (log & hs & Hs & Hsend).
  - reflexivity.
  - eexists. split; [reflexivity|]. intros l h _. reflexivity.
  - reflexivity.
  - reflexivity.
  - rewrite Hsend. vm_compute in Hs. injection Hs as <- <-. reflexivity.
Defined.

(** X24: a reply list of at least two entries whose last entry is [null]
    makes [receive] throw: reading [.text] of that entry raises a
    [TypeError]. *)
Theorem receive_null_last_entry_throws w st threadId env resp err msgs :
  truthy (getChannel st) = true →
  get_succeeds w st threadId resp →
  get_prop (data resp) "error" = Some err →
  truthy err = false →
  get_prop (data resp) "messages" = Some (VArr msgs) →
  (2 ≤ length msgs)%nat →
  last msgs = Some VNull →
  (receive w st threadId env).2 = ThrowTypeError.
Proof.
  intros Hc Hg He Ht Hm Hlen Hlast. rewrite receive_waitForReply.
  destruct (waitForReply_fulfilled _ _ _ _ Hc Hg) as (rest & _ & ->).
  rewrite He, read_bind, Ht, Hm, read_bind. cbn [truthy].
  rewrite array_length, read_bind. unfold js_ge.
  cbn [to_number default from_option id].
  destruct (2 <=? Z.of_nat (length msgs)) eqn:Hle; [|lia].
  rewrite (array_last msgs _ eq_refl), Hlast.
  cbn [default from_option id]. by rewrite read_bind.
Qed.

Lemma receive_null_last_entry_throws_witness :
  (receive (world_of (respond (VObj {[ "messages" :=
              VArr [VObj {[ "text" := VStr "a" ]}; VNull] ]})))
           (configured {[ "channel" := VStr "C1" ]}) (VStr "T1") VUndef).2
  = ThrowTypeError.
Proof.
  apply (receive_null_last_entry_throws
           (world_of (respond (VObj {[ "messages" :=
              VArr [VObj {[ "text" := VStr "a" ]}; VNull] ]})))
           (configured {[ "channel" := VStr "C1" ]}) (VStr "T1") VUndef
           {| status := 200; statusText := "OK";
              data := VObj {[ "messages" :=
                        VArr [VObj {[ "text" := VStr "a" ]}; VNull] ]} |}
           VUndef [VObj {[ "text" := VStr "a" ]}; VNull]).
  - reflexivity.
  - eexists. split; [reflexivity|]. intros log hs _. reflexivity.
  - reflexivity.
  - reflexivity.
  - reflexivity.
  - cbn. lia.
  - reflexivity.
Defined.

Lemma send_request_on_trace w st channel message env log hs axios :
  truthy (getChannel st) = true →
  StandardHeaders st = (log, Return hs) →
  axiosPromise w = Fulfilled axios →
  AxiosCall (getUrl "chat.postMessage")
    {| method := "POST"; headers := hs;
       req_data := Some (VObj {[ "channel" := getChannel st;
                                 "text" := message ]}) |}
  ∈ (send w st channel message env).1.
Proof.
  intros Hc Hs Ha. unfold send. rewrite Hc. cbn [negb].
  rewrite bind_trace, Hs. cbn [fst snd].
  rewrite bind_trace, handleAxiosRequest_trace, Ha.
  apply elem_of_app. right. apply elem_of_app. left. apply list_elem_of_singleton.
  done.
Qed.

(** X25: [set("channel", c)] with a truthy [c], in a module whose manager
    offers no capability, is enough for [send]: the channel argument of
    [send] aside, the POST that follows carries [c] as its channel. *)
Theorem set_channel_then_send JSON_stringify w st c channel message env axios :
  capability st = None →
  truthy c = true →
  axiosPromise w = Fulfilled axios →
  ∃ hs,
    AxiosCall (getUrl "chat.postMessage")
      {| method := "POST"; headers := hs;
         req_data := Some (VObj {[ "channel" := c; "text" := message ]}) |}
    ∈ (send (BrowserConfig_set JSON_stringify w st "channel" c).1
            (BrowserConfig_set JSON_stringify w st "channel" c).2
            channel message env).1.
Proof.
  intros Hcap Ht Ha.
  assert (getChannel (BrowserConfig_set JSON_stringify w st "channel" c).2 = c)
    as Hch.
  { unfold getChannel, capability in *. unfold BrowserConfig_set.
    destruct (localStorage w); cbn [snd al_integmanager with_config];
      rewrite Hcap; unfold BrowserConfig_get; cbn [config with_config];
      by rewrite lookup_insert_eq. }
  assert (axiosPromise (BrowserConfig_set JSON_stringify w st "channel" c).1
          = Fulfilled axios) as Ha'.
  { unfold BrowserConfig_set. by destruct (localStorage w). }
  destruct (StandardHeaders_returns
              (BrowserConfig_set JSON_stringify w st "channel" c).2)
    as (log & hs & Hs).
  exists hs. rewrite <-Hch at 1.
  apply (send_request_on_trace _ _ _ _ _ log hs axios); [|done..].
  by rewrite Hch.
Qed.

Lemma set_channel_then_send_witness :
  ∃ hs,
    AxiosCall "https://slack.com/api/chat.postMessage"
      {| method := "POST"; headers := hs;
         req_data := Some (VObj {[ "channel" := VStr "C9";
                                   "text" := VStr "hello" ]}) |}
    ∈ (send (BrowserConfig_set stringify_persisted
               (world_of (respond (VObj {[ "ts" := VStr "1.0" ]})))
               initial_state "channel" (VStr "C9")).1
            (BrowserConfig_set stringify_persisted
               (world_of (respond (VObj {[ "ts" := VStr "1.0" ]})))
               initial_state "channel" (VStr "C9")).2
            (VStr "elsewhere") (VStr "hello") VUndef).1.
Proof.
  apply (set_channel_then_send stringify_persisted
           (world_of (respond (VObj {[ "ts" := VStr "1.0" ]})))
           initial_state (VStr "C9") (VStr "elsewhere") (VStr "hello") VUndef
           (respond (VObj {[ "ts" := VStr "1.0" ]})));
    reflexivity.
Defined.
